(** * RAG pipeline ([app/services/rag_pipeline.py]): shallow embedding

    The development follows [RAGPipeline.rag_answer]: the search call, the
    loop that bounds the retrieved passages into [context_chunks], the
    generation call, the construction of [sources], and the [except]
    handler that turns every instance of [Exception] into an answer. *)

From Stdlib Require Import ZArith String Ascii List Lia.
From Stdlib Require Import Floats.PrimFloat.
From Stdlib Require Import DecimalString.
From stdpp Require Import base option list strings gmap.

Local Open Scope Z_scope.

(** ** Python values *)

(** A Python [str] is a sequence of Unicode code points; [len] counts code
    points and slicing cuts between them. *)
Definition pystr : Type := list N.

(** Source literals are written as UTF-8 text and decoded to code points. *)
Fixpoint utf8_decode (bs : list N) : pystr :=
  match bs with
  | [] => []
  | b0 :: t0 =>
    if (b0 <? 128)%N then b0 :: utf8_decode t0
    else match t0 with
    | [] => []
    | b1 :: t1 =>
      if (b0 <? 224)%N
      then ((b0 - 192) * 64 + (b1 - 128))%N :: utf8_decode t1
      else match t1 with
      | [] => []
      | b2 :: t2 =>
        if (b0 <? 240)%N
        then ((b0 - 224) * 4096 + (b1 - 128) * 64 + (b2 - 128))%N
               :: utf8_decode t2
        else match t2 with
        | [] => []
        | b3 :: t3 =>
          ((b0 - 240) * 262144 + (b1 - 128) * 4096
           + (b2 - 128) * 64 + (b3 - 128))%N :: utf8_decode t3
        end
      end
    end
  end.

Fixpoint bytes_of_string (s : string) : list N :=
  match s with
  | EmptyString => []
  | String a s' => N_of_ascii a :: bytes_of_string s'
  end.

Definition u (s : string) : pystr := utf8_decode (bytes_of_string s).

(** Field values of a search result, as the search service delivers them. *)
Inductive pyval : Type :=
  | VNone
  | VStr (s : pystr)
  | VInt (n : Z)
  | VFloat (f : float).

(** A search result is a Python [dict] with string keys. *)
Abbreviation dict := (gmap string pyval).

(** [d.get(key, default)]. *)
Definition dict_get (d : dict) (key : string) (dflt : pyval) : pyval :=
  default dflt (d !! key).

(** Truth value of an object ([not content] is its negation): [None], the
    empty string and the zeros are false, everything else is true. *)
Definition py_truthy (v : pyval) : bool :=
  match v with
  | VNone => false
  | VStr [] => false
  | VStr (_ :: _) => true
  | VInt n => negb (n =? 0)
  | VFloat f => negb (PrimFloat.eqb f 0%float)
  end.

(** [len(s)] as a Python integer and the slice [s[:n]] for [0 <= n]. *)
Definition len (s : pystr) : Z := Z.of_nat (length s).

Definition slice_to (n : Z) (s : pystr) : pystr := take (Z.to_nat n) s.

(** ** Exceptions and outcomes *)

(** A raised exception: its class name, the text [str(e)], and whether it
    is an instance of [Exception]. [KeyboardInterrupt], [SystemExit],
    [GeneratorExit] and the classes derived from [BaseException] alone are
    not, and [except Exception] lets them pass. *)
Record exn : Type :=
  Exn { exn_type : string; exn_message : pystr; exn_is_exception : bool }.

Inductive outcome (A : Type) : Type :=
  | Returned (a : A)
  | Raised (e : exn).
Arguments Returned {A} a.
Arguments Raised {A} e.

(** [len(v)] raises [TypeError] on the values that have no length. *)
Definition type_name (v : pyval) : string :=
  match v with
  | VNone => "NoneType"
  | VStr _ => "str"
  | VInt _ => "int"
  | VFloat _ => "float"
  end.

Definition no_len_error (v : pyval) : exn :=
  Exn "TypeError"
      (u "object of type '" ++ u (type_name v) ++ u "' has no len()") true.

(** ** String tests used by the error handler *)

(** [pat in s] on strings: [pat] occurs as a contiguous run of [s]. *)
Fixpoint startswith (pat s : pystr) : bool :=
  match pat, s with
  | [], _ => true
  | _ :: _, [] => false
  | p :: pat', c :: s' => (p =? c)%N && startswith pat' s'
  end.

Fixpoint contains (pat s : pystr) : bool :=
  startswith pat s
  || match s with
     | [] => false
     | _ :: s' => contains pat s'
     end.

(** [str.lower()], code point by code point. The table covers Basic Latin
    and Latin-1, and the three code points outside them whose lower case
    lies inside them or starts with an ASCII letter (U+0130, U+212A,
    U+212B). The case pairs of the other scripts are not tabulated: such a
    code point is left as it is, and its lower case is never an ASCII
    character either. *)
Definition lower_cp (c : N) : pystr :=
  if ((65 <=? c) && (c <=? 90))%N then [c + 32]%N
  else if ((192 <=? c) && (c <=? 222) && negb (c =? 215))%N then [c + 32]%N
  else if (c =? 304)%N then [105; 775]%N
  else if (c =? 8490)%N then [107]%N
  else if (c =? 8491)%N then [229]%N
  else [c].

Definition py_lower (s : pystr) : pystr := flat_map lower_cp s.

(** ** Constants of the pipeline *)

Definition MAX_CHARS_PER_CHUNK : Z := 2000.
Definition MAX_TOTAL_CONTEXT : Z := 6000.

Definition TRUNCATION_MARKER : pystr := u "... [texto truncado]".

Definition NO_RESULTS_ANSWER : pystr :=
  u "No se encontró información relevante en los manuales para responder tu pregunta. Por favor, intenta reformularla o usar términos más específicos.".

Definition NO_TEXT_ANSWER : pystr :=
  u "Se encontraron documentos pero no contenían texto útil. Por favor, intenta otra pregunta.".

Definition RATE_LIMIT_PHRASE : pystr := u "Límite de tasa alcanzado".
Definition RATE_LIMIT_MARKER : pystr := u "rate limit".

Definition NL : pystr := [10%N].
Definition QUOTE : pystr := [34%N].

Definition RATE_LIMIT_HEAD : pystr :=
  u "⚠️ **Límite de tasa alcanzado**" ++ NL ++ NL.
Definition RATE_LIMIT_TAIL : pystr :=
  NL ++ NL ++ u "Por favor, espera un momento antes de hacer otra pregunta.".

Definition GENERIC_ERROR_HEAD : pystr :=
  u "❌ **Error al procesar tu pregunta**" ++ NL ++ NL.
Definition GENERIC_ERROR_TAIL : pystr :=
  NL ++ NL
  ++ u "Por favor, intenta de nuevo o verifica tu configuración de Azure.".

(** [self.system_prompt], set once in [__init__]. *)
Definition system_prompt : pystr :=
  u "Eres un asistente especializado para field engineers de dispositivos biomédicos. " ++ NL
  ++ u "Tu función es ayudar a los técnicos a encontrar información en los manuales técnicos y de usuario." ++ NL
  ++ NL
  ++ u "INSTRUCCIONES:" ++ NL
  ++ u "- Usa ÚNICAMENTE la información proporcionada en el contexto de los manuales." ++ NL
  ++ u "- Si el contexto no contiene información suficiente para responder la pregunta, di claramente: "
  ++ QUOTE ++ u "No encontré información suficiente en los manuales para responder esta pregunta." ++ QUOTE ++ NL
  ++ u "- Proporciona respuestas claras, concisas y técnicas." ++ NL
  ++ u "- Si mencionas procedimientos, sé específico sobre los pasos." ++ NL
  ++ u "- Si hay información sobre modelos o números de parte, inclúyela en tu respuesta.".

(** ** Step 3: bounding the context *)

(** Lines 88-89: a chunk longer than [MAX_CHARS_PER_CHUNK] is cut there and
    marked. *)
Definition truncate_chunk (content : pystr) : pystr :=
  if len content >? MAX_CHARS_PER_CHUNK
  then slice_to MAX_CHARS_PER_CHUNK content ++ TRUNCATION_MARKER
  else content.

(** The [for doc in search_results] loop of lines 82-103, with its two
    loop variables as accumulators. [continue] goes on with the remaining
    documents, [break] returns the chunks collected so far. *)
Fixpoint context_loop (search_results : list dict)
    (context_chunks : list pystr) (total_chars : Z)
    : outcome (list pystr) :=
  match search_results with
  | [] => Returned context_chunks
  | doc :: rest =>
    let content := dict_get doc "content" (VStr []) in
    if negb (py_truthy content)
    then context_loop rest context_chunks total_chars
    else
      match content with
      | VStr content =>
        let content := truncate_chunk content in
        let chunk_size := len content in
        if total_chars + chunk_size >? MAX_TOTAL_CONTEXT then
          match context_chunks with
          | _ :: _ => Returned context_chunks
          | [] =>
            let content :=
              slice_to MAX_TOTAL_CONTEXT content ++ TRUNCATION_MARKER in
            Returned (context_chunks ++ [content])
          end
        else
          context_loop rest (context_chunks ++ [content])
                       (total_chars + chunk_size)
      | other => Raised (no_len_error other)
      end
  end.

Definition build_context (search_results : list dict)
    : outcome (list pystr) :=
  context_loop search_results [] 0.

(** ** Step 5: the sources *)

(** Lines 123-129: one entry per search result. *)
Definition make_source_info (doc : dict) : dict :=
  let source_info : dict :=
    {[ "source"%string := dict_get doc "source" (VStr (u "Unknown"));
       "score"%string := dict_get doc "score" (VFloat 0%float) ]} in
  match doc !! "path"%string with
  | Some path => <[ "path"%string := path ]> source_info
  | None => source_info
  end.

Definition build_sources (search_results : list dict) : list dict :=
  map make_source_info search_results.

(** ** The returned dictionary *)

Inductive rval : Type :=
  | RStr (s : pystr)
  | RList (l : list dict).

Abbreviation result := (gmap string rval).

Definition make_result (answer : pystr) (sources : list dict) : result :=
  {[ "answer"%string := RStr answer; "sources"%string := RList sources ]}.

(** ** The two gateways and the pipeline *)

(** A call made to a gateway, with its arguments. *)
Inductive call : Type :=
  | SearchCall (query : pystr) (top_k : Z)
  | GenerateCall (system_prompt user_message : pystr)
                 (context_chunks : list pystr) (temperature : float).

Definition is_generate_call (c : call) : bool :=
  match c with
  | GenerateCall _ _ _ _ => true
  | SearchCall _ _ => false
  end.

Section Pipeline.

(** The state of the services behind the two clients. A call returns a
    value or raises, and may change that state. *)
Context {World : Type}.
Variable search_documents_text_only :
  pystr -> Z -> World -> outcome (list dict) * World.
Variable generate_response :
  pystr -> pystr -> list pystr -> float -> World -> outcome pystr * World.

Record state : Type := State { world : World; calls : list call }.

(** Computations that read and change the state and may raise. *)
Definition M (A : Type) : Type := state -> outcome A * state.

Definition ret {A} (a : A) : M A := fun st => (Returned a, st).

Definition bind {A B} (m : M A) (k : A -> M B) : M B :=
  fun st =>
    match m st with
    | (Returned a, st') => k a st'
    | (Raised e, st') => (Raised e, st')
    end.

Definition lift {A} (o : outcome A) : M A := fun st => (o, st).

(** [try: body except Exception as e: handler e]: the handler gets the
    instances of [Exception]; any other exception goes on to the caller. *)
Definition try_except {A} (body : M A) (handler : exn -> M A) : M A :=
  fun st =>
    match body st with
    | (Returned a, st') => (Returned a, st')
    | (Raised e, st') =>
      if exn_is_exception e then handler e st' else (Raised e, st')
    end.

Local Notation "'let*' x ':=' c1 'in' c2" := (bind c1 (fun x => c2))
  (at level 10, x name, c1 at level 100, c2 at level 200).

Definition call_search (query : pystr) (top_k : Z) : M (list dict) :=
  fun st =>
    let '(r, w) := search_documents_text_only query top_k (world st) in
    (r, State w (calls st ++ [SearchCall query top_k])).

Definition call_generate (sp user_message : pystr)
    (context_chunks : list pystr) (temperature : float) : M pystr :=
  fun st =>
    let '(r, w) :=
      generate_response sp user_message context_chunks temperature
                        (world st) in
    (r, State w (calls st
                 ++ [GenerateCall sp user_message context_chunks
                                  temperature])).

(** Lines 61-136, the body of the [try]. *)
Definition rag_answer_body (user_question : pystr) (top_k : Z)
    (temperature : float) : M result :=
  let* search_results := call_search user_question top_k in
  match search_results with
  | [] => ret (make_result NO_RESULTS_ANSWER [])
  | _ :: _ =>
    let* context_chunks := lift (build_context search_results) in
    match context_chunks with
    | [] => ret (make_result NO_TEXT_ANSWER [])
    | _ :: _ =>
      let* answer := call_generate system_prompt user_question
                                   context_chunks temperature in
      ret (make_result answer (build_sources search_results))
    end
  end.

(** Lines 138-153, the handler. *)
Definition is_rate_limit (error_message : pystr) : bool :=
  contains RATE_LIMIT_PHRASE error_message
  || contains RATE_LIMIT_MARKER (py_lower error_message).

Definition handle_exception (e : exn) : M result :=
  let error_message := exn_message e in
  if is_rate_limit error_message
  then ret (make_result
              (RATE_LIMIT_HEAD ++ error_message ++ RATE_LIMIT_TAIL) [])
  else ret (make_result
              (GENERIC_ERROR_HEAD ++ error_message ++ GENERIC_ERROR_TAIL)
              []).

Definition rag_answer (user_question : pystr) (top_k : Z)
    (temperature : float) : M result :=
  try_except (rag_answer_body user_question top_k temperature)
             handle_exception.

End Pipeline.

Arguments State {World} world calls.

(** ** Derived notions used in the statements *)

(** What becomes of an exception raised inside the [try]: the answer of
    the handler for an instance of [Exception], the exception itself for
    any other. *)
Definition on_raise {World : Type} (e : exn) (st : @state World)
    : outcome result * @state World :=
  if exn_is_exception e then handle_exception e st else (Raised e, st).

(** Aggregate character length of a list of chunks. *)
Definition context_length (chunks : list pystr) : Z :=
  foldr (fun chunk acc => len chunk + acc) 0 chunks.

(** The contents the loop does not skip, in the order of the results: the
    non-empty strings stored under ["content"]. *)
Definition usable_content (doc : dict) : option pystr :=
  match doc !! "content"%string with
  | Some (VStr (c :: s)) => Some (c :: s)
  | _ => None
  end.

Definition usable_contents (search_results : list dict) : list pystr :=
  omap usable_content search_results.

(** A result whose content is a string, [None] or missing: the loop never
    raises on it. *)
Definition text_or_absent (doc : dict) : Prop :=
  match doc !! "content"%string with
  | Some (VInt _) | Some (VFloat _) => False
  | _ => True
  end.

(** A result without text: no ["content"] key, or [None] or the empty
    string under it. *)
Definition no_text (doc : dict) : Prop :=
  doc !! "content"%string = None
  \/ doc !! "content"%string = Some VNone
  \/ doc !! "content"%string = Some (VStr []).

(** Number of calls to the Generation Gateway in a call log. *)
Definition generate_calls (log : list call) : nat :=
  length (filter (fun c => is_generate_call c = true) log).

(** ASCII case folding of one code point, and two strings that are equal
    up to the case of their ASCII letters. *)
Definition ascii_lower (c : N) : N :=
  if ((65 <=? c) && (c <=? 90))%N then (c + 32)%N else c.

Definition same_ignoring_ascii_case (s1 s2 : pystr) : Prop :=
  map ascii_lower s1 = map ascii_lower s2.

(** [pat] occurs in [s] up to the case of ASCII letters. *)
Definition occurs_ignoring_ascii_case (pat s : pystr) : Prop :=
  exists pre w post,
    s = pre ++ w ++ post /\ same_ignoring_ascii_case w pat.

(** A chunk made from a passage content: the content itself, or its first
    [MAX_CHARS_PER_CHUNK] characters followed by the marker. *)
Definition chunk_of (chunk content : pystr) : Prop :=
  chunk = content
  \/ chunk = slice_to MAX_CHARS_PER_CHUNK content ++ TRUNCATION_MARKER.

(** ** Configuration ([app/config.py]) *)

(** [os.environ], read after [load_dotenv()]: variable names to values. *)
Abbreviation environ := (gmap string pystr).

(** A value that is a string or [None]; [not value] holds for [None] and
    for the empty string. *)
Definition str_truthy (value : option pystr) : bool :=
  match value with
  | Some (_ :: _) => true
  | _ => false
  end.

Definition outcome_bind {A B : Type} (o : outcome A) (k : A -> outcome B)
    : outcome B :=
  match o with
  | Returned a => k a
  | Raised e => Raised e
  end.

Notation "'let?' x ':=' c1 'in' c2" := (outcome_bind c1 (fun x => c2))
  (at level 10, x name, c1 at level 100, c2 at level 200).

Definition missing_variable_error (var_name : string) : exn :=
  Exn "ValueError"
      (u "Variable de entorno requerida '" ++ u var_name
       ++ u "' no encontrada. "
       ++ u "Por favor, crea un archivo .env basado en .env.example")
      true.

(** Lines 37-57. *)
Definition get_env_var (env : environ) (var_name : string) (required : bool)
    : outcome (option pystr) :=
  let value := env !! var_name in
  if required && negb (str_truthy value)
  then Raised (missing_variable_error var_name)
  else Returned value.

(** The three dataclasses; a field holds what [get_env_var] returned, a
    string or [None]. *)
Module AzureSearchConfig.
Record t : Type := Build
  { endpoint : option pystr; api_key : option pystr;
    index_name : option pystr }.
End AzureSearchConfig.

Module AzureOpenAIConfig.
Record t : Type := Build
  { endpoint : option pystr; api_key : option pystr;
    deployment_name : option pystr }.
End AzureOpenAIConfig.

Module AppConfig.
Record t : Type := Build
  { azure_search : AzureSearchConfig.t;
    azure_openai : AzureOpenAIConfig.t;
    streamlit_port : option Z }.
End AppConfig.

Section Config.

(** The builtin [int] applied to a string: an integer, or a [ValueError]. *)
Variable py_int : pystr -> outcome Z.

(** Lines 60-96. *)
Definition load_config (env : environ) : outcome AppConfig.t :=
  let? search_endpoint := get_env_var env "AZURE_SEARCH_ENDPOINT" true in
  let? search_api_key := get_env_var env "AZURE_SEARCH_API_KEY" true in
  let? search_index := get_env_var env "AZURE_SEARCH_INDEX" true in
  let? openai_endpoint := get_env_var env "AZURE_OPENAI_ENDPOINT" true in
  let? openai_api_key := get_env_var env "AZURE_OPENAI_API_KEY" true in
  let? openai_deployment :=
    get_env_var env "AZURE_OPENAI_DEPLOYMENT" true in
  let? streamlit_port_str :=
    get_env_var env "STREAMLIT_SERVER_PORT" false in
  let? streamlit_port :=
    match streamlit_port_str with
    | Some (c :: s) => let? port := py_int (c :: s) in Returned (Some port)
    | _ => Returned None
    end in
  Returned
    (AppConfig.Build
       (AzureSearchConfig.Build search_endpoint search_api_key search_index)
       (AzureOpenAIConfig.Build openai_endpoint openai_api_key
                                openai_deployment)
       streamlit_port).

End Config.

(** The required variables, in the order [load_config] reads them. *)
Definition REQUIRED_VARIABLES : list string :=
  [ "AZURE_SEARCH_ENDPOINT"; "AZURE_SEARCH_API_KEY"; "AZURE_SEARCH_INDEX";
    "AZURE_OPENAI_ENDPOINT"; "AZURE_OPENAI_API_KEY";
    "AZURE_OPENAI_DEPLOYMENT" ]%string.

(** A variable that is set to a non-empty value. *)
Definition is_set (env : environ) (var_name : string) : Prop :=
  exists value : pystr, env !! var_name = Some value /\ value <> [].

(** A field that holds the non-empty value of a variable. *)
Definition holds_variable (env : environ) (var_name : string)
    (field : option pystr) : Prop :=
  exists value : pystr,
    env !! var_name = Some value /\ value <> [] /\ field = Some value.

(** A stand-in for [int] on strings of ASCII digits; every other string is
    refused here. *)
Fixpoint digits_value (acc : Z) (s : pystr) : option Z :=
  match s with
  | [] => Some acc
  | c :: s' =>
    if ((48 <=? c) && (c <=? 57))%N
    then digits_value (10 * acc + (Z.of_N c - 48)) s'
    else None
  end.

Definition digits_int (s : pystr) : outcome Z :=
  match s with
  | [] => Raised (Exn "ValueError" (u "invalid literal for int()") true)
  | _ :: _ =>
    match digits_value 0 s with
    | Some n => Returned n
    | None => Raised (Exn "ValueError" (u "invalid literal for int()") true)
    end
  end.

Definition env_complete : environ :=
  {[ "AZURE_SEARCH_ENDPOINT"%string := u "https://buscar.search.windows.net";
     "AZURE_SEARCH_API_KEY"%string := u "clave-busqueda";
     "AZURE_SEARCH_INDEX"%string := u "manuales";
     "AZURE_OPENAI_ENDPOINT"%string := u "https://modelo.openai.azure.com";
     "AZURE_OPENAI_API_KEY"%string := u "clave-modelo";
     "AZURE_OPENAI_DEPLOYMENT"%string := u "gpt" ]}.

Definition env_with_port (port : pystr) : environ :=
  <[ "STREAMLIT_SERVER_PORT"%string := port ]> env_complete.

Definition env_empty_key : environ :=
  <[ "AZURE_SEARCH_INDEX"%string := [] ]>
    (delete "AZURE_OPENAI_API_KEY"%string (env_with_port (u "puerto"))).

(** ** The source captions of the chat page ([app/main.py]) *)

(** [str(n)] of an integer: its decimal digits. *)
Definition int_str (n : Z) : pystr := u (NilZero.string_of_int (Z.to_int n)).

Section Captions.

(** [str(x)] of a float and [format(x, ".2f")] of a number. *)
Variable float_str : float -> pystr.
Variable format_2f : pyval -> pystr.

(** What an f-string puts for a value. *)
Definition py_str (v : pyval) : pystr :=
  match v with
  | VNone => u "None"
  | VStr s => s
  | VInt n => int_str n
  | VFloat f => float_str f
  end.

(** [score > 0]: defined on numbers, a [TypeError] otherwise. *)
Definition greater_than_zero (score : pyval) : outcome bool :=
  match score with
  | VInt n => Returned (0 <? n)
  | VFloat f => Returned (PrimFloat.ltb 0%float f)
  | other =>
    Raised (Exn "TypeError"
                (u "'>' not supported between instances of '"
                 ++ u (type_name other) ++ u "' and 'int'") true)
  end.

(** Lines 149-157: the text given to [st.caption] for the [i]-th source
    of a fresh answer. *)
Definition live_caption (i : Z) (source : dict) : outcome pystr :=
  let source_name := dict_get source "source" (VStr (u "Unknown")) in
  let page := dict_get source "pageNumber" VNone in
  let score := dict_get source "score" (VFloat 0%float) in
  let source_text := int_str i ++ u ". " ++ py_str source_name in
  let source_text :=
    match page with
    | VNone => source_text
    | _ => source_text ++ u " (pág. " ++ py_str page ++ u ")"
    end in
  let? positive := greater_than_zero score in
  if positive
  then Returned (source_text ++ u " - Relevancia: " ++ format_2f score)
  else Returned source_text.

(** Lines 109-114: the same for a message of the history. *)
Definition history_caption (i : Z) (source : dict) : outcome pystr :=
  let source_name := dict_get source "source" (VStr (u "Unknown")) in
  let score := dict_get source "score" (VFloat 0%float) in
  let source_text := int_str i ++ u ". " ++ py_str source_name in
  let? positive := greater_than_zero score in
  if positive
  then Returned (source_text ++ u " - Relevancia: " ++ format_2f score)
  else Returned source_text.

End Captions.

(** ** Sample data and stub gateways *)

Definition doc_manual : dict :=
  {[ "content"%string := VStr (u "Pulse MODE dos veces para calibrar.");
     "source"%string := VStr (u "manual_x200.pdf");
     "score"%string := VFloat 1.5%float;
     "path"%string := VStr (u "https://store/manual_x200.pdf");
     "pageNumber"%string := VInt 12 ]}.

Definition doc_bare : dict :=
  {[ "content"%string := VStr (u "Cambie el filtro cada seis meses.") ]}.

Definition doc_empty : dict :=
  {[ "content"%string := VStr []; "source"%string := VStr (u "vacio.pdf") ]}.

Definition doc_null : dict :=
  {[ "content"%string := VNone; "source"%string := VStr (u "nulo.pdf") ]}.

Definition doc_no_content : dict :=
  {[ "source"%string := VStr (u "portada.pdf") ]}.

Definition long_passage : pystr := repeat 97%N (Z.to_nat 3000).

Definition doc_long : dict := {[ "content"%string := VStr long_passage ]}.

Definition scenario_c : list dict :=
  [doc_long; doc_long; doc_long; doc_long; doc_long].

(** Gateways that answer every call with the same outcome; the world is
    the number of requests served so far. *)
Definition stub_search (r : outcome (list dict))
    : pystr -> Z -> nat -> outcome (list dict) * nat :=
  fun _ _ n => (r, S n).

Definition stub_generate (r : outcome pystr)
    : pystr -> pystr -> list pystr -> float -> nat -> outcome pystr * nat :=
  fun _ _ _ _ n => (r, S n).

Definition rate_limit_error : exn :=
  Exn "RuntimeError" (u "HTTP 429: Rate Limit exceeded") true.

Definition lowercase_phrase_error : exn :=
  Exn "RuntimeError" (u "límite de tasa alcanzado") true.

Definition keyboard_interrupt : exn := Exn "KeyboardInterrupt" [] false.

Definition system_exit_rate_limit : exn :=
  Exn "SystemExit" (u "rate limit") false.

Definition mixed_results : list dict := [doc_manual; doc_empty; doc_bare].

Definition mixed_chunks : list pystr :=
  [u "Pulse MODE dos veces para calibrar.";
   u "Cambie el filtro cada seis meses."].

Definition textless_results : list dict :=
  [doc_empty; doc_null; doc_no_content].

Definition doc_number : dict :=
  {[ "content"%string := VInt 5; "source"%string := VStr (u "tabla.pdf") ]}.

Definition question : pystr := u "¿Cómo calibro el sensor?".
Definition reply : pystr := u "Pulse MODE dos veces.".
Definition start : @state nat := State 0%nat [].

(** ** Facts about strings *)

Example u_ascii : u "abc" = [97; 98; 99]%N.
Proof. reflexivity. Qed.

Example u_latin1 : u "Lí" = [76; 237]%N.
Proof. reflexivity. Qed.

Example u_bmp : u "❌" = [10060]%N.
Proof. reflexivity. Qed.

Example py_lower_ascii : py_lower (u "Rate LIMIT") = u "rate limit".
Proof. reflexivity. Qed.

Example py_lower_latin1 : py_lower (u "LÍMITE") = u "límite".
Proof. reflexivity. Qed.

Lemma len_app (s1 s2 : pystr) : len (s1 ++ s2) = len s1 + len s2.
Proof. unfold len. rewrite length_app. lia. Qed.

Lemma len_nonneg (s : pystr) : 0 <= len s.
Proof. unfold len. lia. Qed.

Lemma len_TRUNCATION_MARKER : len TRUNCATION_MARKER = 20.
Proof. reflexivity. Qed.

Lemma len_slice_to (n : Z) (s : pystr) :
  0 <= n -> len (slice_to n s) = Z.min n (len s).
Proof. intros Hn. unfold len, slice_to. rewrite length_take. lia. Qed.

Lemma slice_to_all (n : Z) (s : pystr) : len s <= n -> slice_to n s = s.
Proof. intros H. unfold slice_to, len in *. apply take_ge. lia. Qed.

Lemma startswith_app (pat post : pystr) : startswith pat (pat ++ post) = true.
Proof.
  induction pat as [|p pat IH]; simpl; [done|].
  by rewrite N.eqb_refl, IH.
Qed.

Lemma startswith_inv (pat s : pystr) :
  startswith pat s = true -> exists post, s = pat ++ post.
Proof.
  revert s. induction pat as [|p pat IH]; intros s H.
  - by exists s.
  - destruct s as [|c s]; simpl in H; [done|].
    apply andb_true_iff in H as [Hpc Hrest].
    apply N.eqb_eq in Hpc as ->.
    destruct (IH _ Hrest) as [post ->]. by exists post.
Qed.

Lemma contains_startswith (pat s : pystr) :
  startswith pat s = true -> contains pat s = true.
Proof. intros H. destruct s; simpl; by rewrite H. Qed.

Lemma contains_occurs (pat s : pystr) :
  contains pat s = true <-> exists pre post, s = pre ++ pat ++ post.
Proof.
  split.
  - induction s as [|c s IH]; simpl; intros H.
    + rewrite orb_false_r in H. exists []. by apply startswith_inv.
    + apply orb_true_iff in H as [H|H].
      * exists []. by apply startswith_inv.
      * destruct (IH H) as (pre & post & ->). by exists (c :: pre), post.
  - intros (pre & post & ->).
    induction pre as [|c pre IH]; simpl.
    + apply contains_startswith, startswith_app.
    + by rewrite IH, orb_true_r.
Qed.

Lemma py_lower_app (s1 s2 : pystr) :
  py_lower (s1 ++ s2) = py_lower s1 ++ py_lower s2.
Proof. unfold py_lower. apply flat_map_app. Qed.

Lemma lower_cp_ascii (c : N) : (c < 128)%N -> lower_cp c = [ascii_lower c].
Proof.
  intros Hc. unfold lower_cp, ascii_lower.
  destruct ((65 <=? c) && (c <=? 90))%N eqn:E1; [done|].
  destruct ((192 <=? c) && (c <=? 222) && negb (c =? 215))%N eqn:E2.
  { apply andb_true_iff in E2 as [E2 _]. apply andb_true_iff in E2 as [E2 _].
    apply N.leb_le in E2. lia. }
  destruct (c =? 304)%N eqn:E3; [apply N.eqb_eq in E3; lia|].
  destruct (c =? 8490)%N eqn:E4; [apply N.eqb_eq in E4; lia|].
  destruct (c =? 8491)%N eqn:E5; [apply N.eqb_eq in E5; lia|].
  done.
Qed.

Lemma ascii_lower_ascii (c : N) : (ascii_lower c < 128)%N -> (c < 128)%N.
Proof.
  unfold ascii_lower. destruct ((65 <=? c) && (c <=? 90))%N eqn:E; [|done].
  apply andb_true_iff in E as [_ E]. apply N.leb_le in E. lia.
Qed.

Lemma py_lower_ascii_fold (s : pystr) :
  Forall (fun c => (c < 128)%N) (map ascii_lower s) ->
  py_lower s = map ascii_lower s.
Proof.
  induction s as [|c s IH]; simpl; intros H; [done|].
  apply Forall_cons in H as [Hc Hs].
  rewrite lower_cp_ascii by by apply ascii_lower_ascii.
  simpl. f_equal. by apply IH.
Qed.

(** ** Facts about the context loop *)

Arguments len : simpl never.
Arguments slice_to : simpl never.
Arguments truncate_chunk : simpl never.

Lemma context_length_app (l1 l2 : list pystr) :
  context_length (l1 ++ l2) = context_length l1 + context_length l2.
Proof.
  induction l1 as [|c l1 IH]; simpl; [done|]. rewrite IH. lia.
Qed.

Lemma context_length_singleton (c : pystr) : context_length [c] = len c.
Proof. simpl. lia. Qed.

Lemma truncate_chunk_long (content : pystr) :
  len content > MAX_CHARS_PER_CHUNK ->
  truncate_chunk content
  = slice_to MAX_CHARS_PER_CHUNK content ++ TRUNCATION_MARKER.
Proof.
  intros H. unfold truncate_chunk.
  destruct (Z.gtb_spec (len content) MAX_CHARS_PER_CHUNK); [done|lia].
Qed.

Lemma truncate_chunk_short (content : pystr) :
  len content <= MAX_CHARS_PER_CHUNK -> truncate_chunk content = content.
Proof.
  intros H. unfold truncate_chunk.
  destruct (Z.gtb_spec (len content) MAX_CHARS_PER_CHUNK); [lia|done].
Qed.

Lemma len_truncate_chunk (content : pystr) :
  len (truncate_chunk content) <= MAX_CHARS_PER_CHUNK + len TRUNCATION_MARKER.
Proof.
  rewrite len_TRUNCATION_MARKER.
  destruct (Z.le_gt_cases (len content) MAX_CHARS_PER_CHUNK) as [H|H].
  - rewrite truncate_chunk_short by done. lia.
  - rewrite truncate_chunk_long by lia.
    rewrite len_app, len_TRUNCATION_MARKER, len_slice_to by done.
    unfold MAX_CHARS_PER_CHUNK in *. lia.
Qed.

(** The test that guards the hard truncation (line 93 with an empty
    [context_chunks], hence [total_chars = 0]) fails on every chunk. *)
Lemma first_chunk_fits (content : pystr) :
  (0 + len (truncate_chunk content) >? MAX_TOTAL_CONTEXT) = false.
Proof.
  pose proof (len_truncate_chunk content) as H.
  rewrite len_TRUNCATION_MARKER in H.
  destruct (Z.gtb_spec (0 + len (truncate_chunk content)) MAX_TOTAL_CONTEXT);
    [|done].
  unfold MAX_TOTAL_CONTEXT, MAX_CHARS_PER_CHUNK in *. lia.
Qed.

(** One iteration, by the value stored under ["content"]. *)
Lemma context_loop_cons (doc : dict) (rest : list dict)
    (context_chunks : list pystr) (total_chars : Z) :
  context_loop (doc :: rest) context_chunks total_chars =
  match doc !! "content"%string with
  | Some (VStr (c :: s)) =>
    let content := truncate_chunk (c :: s) in
    if total_chars + len content >? MAX_TOTAL_CONTEXT then
      match context_chunks with
      | _ :: _ => Returned context_chunks
      | [] => Returned [slice_to MAX_TOTAL_CONTEXT content ++ TRUNCATION_MARKER]
      end
    else context_loop rest (context_chunks ++ [content])
                      (total_chars + len content)
  | Some (VInt n) =>
    if n =? 0 then context_loop rest context_chunks total_chars
    else Raised (no_len_error (VInt n))
  | Some (VFloat f) =>
    if PrimFloat.eqb f 0%float
    then context_loop rest context_chunks total_chars
    else Raised (no_len_error (VFloat f))
  | _ => context_loop rest context_chunks total_chars
  end.
Proof.
  cbn [context_loop]. unfold dict_get.
  destruct (doc !! "content"%string) as [[|[|c s]|n|f]|];
    cbn [default from_option id py_truthy negb]; try reflexivity.
  - destruct (_ >? _); [|reflexivity]. by destruct context_chunks.
  - by destruct (n =? 0).
  - by destruct (PrimFloat.eqb f 0%float).
Qed.

Lemma usable_contents_cons (doc : dict) (rest : list dict) :
  usable_contents (doc :: rest) =
  match usable_content doc with
  | Some s => s :: usable_contents rest
  | None => usable_contents rest
  end.
Proof. reflexivity. Qed.

Lemma context_loop_spec (docs : list dict) :
  forall (chunks : list pystr) (total : Z) (out : list pystr),
    total = context_length chunks ->
    context_loop docs chunks total = Returned out ->
    exists n : nat,
      out = chunks ++ map truncate_chunk (take n (usable_contents docs))
      /\ (context_length chunks <= MAX_TOTAL_CONTEXT ->
          context_length out <= MAX_TOTAL_CONTEXT).
Proof.
  induction docs as [|doc rest IH]; intros chunks total out Htotal Hrun.
  - injection Hrun as <-. exists 0%nat. by rewrite app_nil_r.
  - rewrite context_loop_cons in Hrun.
    rewrite usable_contents_cons. unfold usable_content.
    destruct (doc !! "content"%string) as [[|[|c s]|n|f]|]; eauto.
    + cbv zeta in Hrun.
      destruct (Z.gtb_spec (total + len (truncate_chunk (c :: s)))
                           MAX_TOTAL_CONTEXT) as [Hover|Hfits].
      * destruct chunks as [|c0 chunks].
        { simpl in Htotal. subst total.
          pose proof (len_truncate_chunk (c :: s)) as Hdead.
          rewrite len_TRUNCATION_MARKER in Hdead.
          unfold MAX_TOTAL_CONTEXT, MAX_CHARS_PER_CHUNK in *. lia. }
        injection Hrun as <-. exists 0%nat. by rewrite app_nil_r.
      * apply IH in Hrun as (n & -> & Hbound).
        2: { rewrite context_length_app, context_length_singleton. lia. }
        exists (S n). split; [by rewrite <- app_assoc|].
        intros _. apply Hbound.
        rewrite context_length_app, context_length_singleton. lia.
    + destruct (n =? 0); [eauto|done].
    + destruct (PrimFloat.eqb f 0%float); [eauto|done].
Qed.

Lemma context_loop_returns (docs : list dict) :
  Forall text_or_absent docs ->
  forall (chunks : list pystr) (total : Z),
    exists out, context_loop docs chunks total = Returned out.
Proof.
  induction 1 as [|doc rest Hdoc _ IH]; intros chunks total; [by eexists|].
  rewrite context_loop_cons. unfold text_or_absent in Hdoc.
  destruct (doc !! "content"%string) as [[|[|c s]|n|f]|]; try done.
  cbv zeta. destruct (_ >? _); [|done]. destruct chunks; by eexists.
Qed.

Lemma context_loop_no_text (docs : list dict) (chunks : list pystr)
    (total : Z) :
  Forall no_text docs -> context_loop docs chunks total = Returned chunks.
Proof.
  induction 1 as [|doc rest Hdoc _ IH]; [done|].
  rewrite context_loop_cons.
  destruct Hdoc as [-> | [-> | ->]]; done.
Qed.

Lemma build_context_spec (docs : list dict) (out : list pystr) :
  build_context docs = Returned out ->
  exists n : nat,
    out = map truncate_chunk (take n (usable_contents docs))
    /\ context_length out <= MAX_TOTAL_CONTEXT.
Proof.
  intros Hrun. apply context_loop_spec in Hrun as (n & -> & Hbound); [|done].
  exists n. split; [done|]. apply Hbound. simpl. unfold MAX_TOTAL_CONTEXT. lia.
Qed.

(** ** Facts about the returned dictionaries *)

Arguments make_result : simpl never.
Arguments make_source_info : simpl never.

Lemma make_result_answer (answer : pystr) (sources : list dict) :
  make_result answer sources !! "answer"%string = Some (RStr answer).
Proof. unfold make_result. apply lookup_insert_eq. Qed.

Lemma make_result_sources (answer : pystr) (sources : list dict) :
  make_result answer sources !! "sources"%string = Some (RList sources).
Proof.
  unfold make_result. rewrite lookup_insert_ne by done.
  apply lookup_singleton_eq.
Qed.

Lemma make_source_info_lookup (doc : dict) (key : string) :
  make_source_info doc !! key =
  if decide (key = "path"%string) then doc !! "path"%string
  else if decide (key = "source"%string)
       then Some (dict_get doc "source" (VStr (u "Unknown")))
  else if decide (key = "score"%string)
       then Some (dict_get doc "score" (VFloat 0%float))
  else None.
Proof.
  unfold make_source_info.
  destruct (doc !! "path"%string) as [path|] eqn:Hpath;
    repeat case_decide; subst; simplify_map_eq; done.
Qed.

Lemma build_sources_lookup (docs : list dict) (i : nat) :
  build_sources docs !! i = make_source_info <$> docs !! i.
Proof. unfold build_sources. apply list_lookup_fmap. Qed.

Lemma generate_calls_search (log : list call) (query : pystr) (top_k : Z) :
  generate_calls (log ++ [SearchCall query top_k]) = generate_calls log.
Proof.
  unfold generate_calls. rewrite filter_app, length_app. simpl. lia.
Qed.

(** ** The context bundle (step 3) *)

Lemma truncate_chunk_chunk_of (content : pystr) :
  chunk_of (truncate_chunk content) content.
Proof.
  destruct (Z.le_gt_cases (len content) MAX_CHARS_PER_CHUNK) as [H|H].
  - left. by apply truncate_chunk_short.
  - right. apply truncate_chunk_long. lia.
Qed.

Lemma build_context_returns (docs : list dict) :
  Forall text_or_absent docs -> exists out, build_context docs = Returned out.
Proof. intros H. by apply context_loop_returns. Qed.

(** C2: on every sequence of passages whose contents are text (or absent)
    the loop returns a list of chunks, and the aggregate length of every
    list it returns is at most [MAX_TOTAL_CONTEXT] = 6000. The bound holds
    without exception: the hard-truncated single chunk that the claim
    exempts never arises. *)
Theorem context_within_budget (docs : list dict) :
  (Forall text_or_absent docs -> exists out, build_context docs = Returned out)
  /\ (forall out : list pystr,
        build_context docs = Returned out ->
        context_length out <= MAX_TOTAL_CONTEXT).
Proof.
  split; [apply build_context_returns|].
  intros out Hrun. by apply build_context_spec in Hrun as (n & _ & Hbound).
Qed.

Lemma context_within_budget_witness :
  (exists out, build_context scenario_c = Returned out)
  /\ context_length [truncate_chunk long_passage; truncate_chunk long_passage]
     <= MAX_TOTAL_CONTEXT.
Proof.
  destruct (context_within_budget scenario_c) as [Hreturns Hbound].
  split.
  - apply Hreturns. unfold scenario_c. repeat (apply Forall_cons; split).
    all: try exact I. apply Forall_nil_2.
  - apply Hbound. vm_compute. reflexivity.
Defined.

(** C6: the chunks returned for a non-empty sequence of passages are made,
    one by one and in the same order, from a subsequence of the non-empty
    passage contents. *)
Theorem context_preserves_order (docs : list dict) (out : list pystr) :
  docs <> [] ->
  build_context docs = Returned out ->
  exists selected : list pystr,
    selected `sublist_of` usable_contents docs
    /\ Forall2 chunk_of out selected.
Proof.
  intros _ Hrun. apply build_context_spec in Hrun as (n & -> & _).
  exists (take n (usable_contents docs)). split; [apply sublist_take|].
  apply Forall2_fmap_l, Forall_Forall2_diag, Forall_forall.
  intros content _. apply truncate_chunk_chunk_of.
Qed.

Lemma context_preserves_order_witness :
  exists selected : list pystr,
    selected `sublist_of` usable_contents [doc_manual; doc_empty; doc_bare]
    /\ Forall2 chunk_of
         [u "Pulse MODE dos veces para calibrar.";
          u "Cambie el filtro cada seis meses."]
         selected.
Proof.
  apply (context_preserves_order [doc_manual; doc_empty; doc_bare]).
  - discriminate.
  - vm_compute. reflexivity.
Defined.

(** C7: in the iteration for a passage with a non-empty string content,
    the candidate chunk is the first [MAX_CHARS_PER_CHUNK] = 2000 characters
    of the content followed by the marker when the content is longer than
    2000, and the content unchanged otherwise; the aggregate test is made
    on this candidate, and it is the candidate that is appended. Hence the
    chunk at position [i] of a returned bundle is the candidate of the
    [i]-th non-empty content. *)
Theorem per_chunk_truncation :
  (forall (doc : dict) (rest : list dict) (chunks : list pystr) (total : Z)
          (content : pystr),
     doc !! "content"%string = Some (VStr content) ->
     content <> [] ->
     exists candidate : pystr,
       (len content > MAX_CHARS_PER_CHUNK ->
        candidate = take 2000 content ++ TRUNCATION_MARKER
        /\ length (take 2000 content) = 2000%nat)
       /\ (len content <= MAX_CHARS_PER_CHUNK -> candidate = content)
       /\ (total + len candidate <= MAX_TOTAL_CONTEXT ->
           context_loop (doc :: rest) chunks total
           = context_loop rest (chunks ++ [candidate])
                          (total + len candidate))
       /\ (total + len candidate > MAX_TOTAL_CONTEXT -> chunks <> [] ->
           context_loop (doc :: rest) chunks total = Returned chunks))
  /\ (forall (docs : list dict) (out : list pystr) (i : nat) (chunk : pystr),
        build_context docs = Returned out ->
        out !! i = Some chunk ->
        exists content : pystr,
          usable_contents docs !! i = Some content
          /\ (len content > MAX_CHARS_PER_CHUNK ->
              chunk = take 2000 content ++ TRUNCATION_MARKER)
          /\ (len content <= MAX_CHARS_PER_CHUNK -> chunk = content)).
Proof.
  split.
  - intros doc rest chunks total content Hdoc Hne.
    exists (truncate_chunk content). split; [|split; [|split]].
    + intros Hlong. split; [by apply truncate_chunk_long|].
      rewrite length_take. unfold len, MAX_CHARS_PER_CHUNK in Hlong. lia.
    + apply truncate_chunk_short.
    + intros Hfits. rewrite context_loop_cons, Hdoc.
      destruct content as [|c s]; [by destruct Hne|]. cbv zeta.
      destruct (Z.gtb_spec (total + len (truncate_chunk (c :: s)))
                           MAX_TOTAL_CONTEXT); [lia|reflexivity].
    + intros Hover Hchunks. rewrite context_loop_cons, Hdoc.
      destruct content as [|c s]; [by destruct Hne|]. cbv zeta.
      destruct (Z.gtb_spec (total + len (truncate_chunk (c :: s)))
                           MAX_TOTAL_CONTEXT); [|lia].
      destruct chunks; [by destruct Hchunks|reflexivity].
  - intros docs out i chunk Hrun Hi.
    apply build_context_spec in Hrun as (n & -> & _).
    rewrite list_lookup_fmap in Hi.
    destruct (take n (usable_contents docs) !! i) as [content|] eqn:Hc;
      [|discriminate].
    injection Hi as <-. exists content.
    split; [by apply lookup_take_Some in Hc as [? _]|]. split.
    + intros Hlong. apply truncate_chunk_long. lia.
    + apply truncate_chunk_short.
Qed.

Lemma per_chunk_truncation_witness :
  (exists candidate : pystr,
     (len long_passage > MAX_CHARS_PER_CHUNK ->
      candidate = take 2000 long_passage ++ TRUNCATION_MARKER
      /\ length (take 2000 long_passage) = 2000%nat)
     /\ (len long_passage <= MAX_CHARS_PER_CHUNK -> candidate = long_passage)
     /\ (0 + len candidate <= MAX_TOTAL_CONTEXT ->
         context_loop [doc_long] [] 0
         = context_loop [] ([] ++ [candidate]) (0 + len candidate))
     /\ (0 + len candidate > MAX_TOTAL_CONTEXT -> @nil pystr <> [] ->
         context_loop [doc_long] [] 0 = Returned []))
  /\ (exists content : pystr,
        usable_contents scenario_c !! 1%nat = Some content
        /\ (len content > MAX_CHARS_PER_CHUNK ->
            truncate_chunk long_passage
            = take 2000 content ++ TRUNCATION_MARKER)
        /\ (len content <= MAX_CHARS_PER_CHUNK ->
            truncate_chunk long_passage = content)).
Proof.
  destruct per_chunk_truncation as [Hstep Hbundle]. split.
  - apply (Hstep doc_long [] [] 0 long_passage).
    + vm_compute. reflexivity.
    + intros Hnil. apply (f_equal length) in Hnil. vm_compute in Hnil.
      discriminate.
  - apply (Hbundle scenario_c
             [truncate_chunk long_passage; truncate_chunk long_passage]).
    + vm_compute. reflexivity.
    + reflexivity.
Defined.

(** C9, refuted as stated: no sequence of passages makes the loop return a
    sole chunk longer than [MAX_CHARS_PER_CHUNK] plus the marker, so the
    hard-truncation branch, whose chunk would have [MAX_TOTAL_CONTEXT] plus
    the marker characters, is never executed. *)
Lemma hard_truncation_unreachable :
  ~ exists (docs : list dict) (chunk : pystr),
      build_context docs = Returned [chunk]
      /\ len chunk > MAX_CHARS_PER_CHUNK + len TRUNCATION_MARKER.
Proof.
  intros (docs & chunk & Hrun & Hlong).
  apply build_context_spec in Hrun as (n & Hout & _).
  destruct (take n (usable_contents docs)) as [|content rest];
    [discriminate|].
  injection Hout as -> _.
  pose proof (len_truncate_chunk content). lia.
Qed.

(** C9, amended: when the bundle is empty the running total is 0 and the
    candidate chunk has at most 2020 characters, so the test guarding the
    hard truncation fails for every content; every chunk of a returned
    bundle is the candidate of a non-empty passage content and has at most
    [MAX_CHARS_PER_CHUNK] plus the marker = 2020 characters. *)
Theorem chunks_within_per_chunk_cap :
  (forall content : pystr,
     (0 + len (truncate_chunk content) >? MAX_TOTAL_CONTEXT) = false)
  /\ (forall (docs : list dict) (out : list pystr),
        build_context docs = Returned out ->
        Forall (fun chunk =>
                  (exists content, content ∈ usable_contents docs
                                   /\ chunk = truncate_chunk content)
                  /\ len chunk <= MAX_CHARS_PER_CHUNK + len TRUNCATION_MARKER)
               out).
Proof.
  split; [apply first_chunk_fits|].
  intros docs out Hrun. apply build_context_spec in Hrun as (n & -> & _).
  apply Forall_fmap, Forall_forall. intros content Hin.
  cbv beta delta [compose]. split.
  - exists content. split; [|reflexivity].
    eapply elem_of_sublist; [exact Hin|apply sublist_take].
  - apply len_truncate_chunk.
Qed.

Lemma chunks_within_per_chunk_cap_witness :
  Forall (fun chunk =>
            (exists content, content ∈ usable_contents scenario_c
                             /\ chunk = truncate_chunk content)
            /\ len chunk <= MAX_CHARS_PER_CHUNK + len TRUNCATION_MARKER)
         [truncate_chunk long_passage; truncate_chunk long_passage].
Proof.
  apply (proj2 chunks_within_per_chunk_cap scenario_c).
  vm_compute. reflexivity.
Defined.

(** ** The error handler *)

Lemma is_rate_limit_phrase (msg : pystr) :
  (exists pre post, msg = pre ++ RATE_LIMIT_PHRASE ++ post) ->
  is_rate_limit msg = true.
Proof.
  intros H. apply contains_occurs in H. unfold is_rate_limit.
  rewrite H. reflexivity.
Qed.

Lemma is_rate_limit_marker (msg : pystr) :
  occurs_ignoring_ascii_case RATE_LIMIT_MARKER msg ->
  is_rate_limit msg = true.
Proof.
  intros (pre & w & post & -> & Hw). unfold same_ignoring_ascii_case in Hw.
  assert (py_lower w = RATE_LIMIT_MARKER) as Hlow.
  { rewrite py_lower_ascii_fold; rewrite Hw.
    - vm_compute. reflexivity.
    - vm_compute. repeat constructor. }
  unfold is_rate_limit. rewrite !py_lower_app, Hlow.
  assert (contains RATE_LIMIT_MARKER
            (py_lower pre ++ RATE_LIMIT_MARKER ++ py_lower post) = true)
    as -> by (apply contains_occurs; eauto).
  apply orb_true_r.
Qed.

Lemma is_rate_limit_other (msg : pystr) :
  ~ (exists pre post, msg = pre ++ RATE_LIMIT_PHRASE ++ post) ->
  ~ (exists pre post, py_lower msg = pre ++ RATE_LIMIT_MARKER ++ post) ->
  is_rate_limit msg = false.
Proof.
  intros Hphrase Hmarker. unfold is_rate_limit.
  destruct (contains RATE_LIMIT_PHRASE msg) eqn:E1.
  { exfalso. apply Hphrase. by apply contains_occurs. }
  destruct (contains RATE_LIMIT_MARKER (py_lower msg)) eqn:E2.
  { exfalso. apply Hmarker. by apply contains_occurs. }
  reflexivity.
Qed.

Lemma handle_exception_rate_limit {World} (e : exn) (st : @state World) :
  is_rate_limit (exn_message e) = true ->
  handle_exception e st
  = (Returned (make_result
                 (RATE_LIMIT_HEAD ++ exn_message e ++ RATE_LIMIT_TAIL) []),
     st).
Proof. intros H. unfold handle_exception, ret. rewrite H. reflexivity. Qed.

Lemma handle_exception_generic {World} (e : exn) (st : @state World) :
  is_rate_limit (exn_message e) = false ->
  handle_exception e st
  = (Returned (make_result
                 (GENERIC_ERROR_HEAD ++ exn_message e ++ GENERIC_ERROR_TAIL)
                 []),
     st).
Proof. intros H. unfold handle_exception, ret. rewrite H. reflexivity. Qed.

(** The only exception of the loop is the [TypeError] of [len]. *)
Lemma context_loop_raises_exception (docs : list dict) :
  forall (chunks : list pystr) (total : Z) (e : exn),
    context_loop docs chunks total = Raised e -> exn_is_exception e = true.
Proof.
  induction docs as [|doc rest IH]; intros chunks total e Hrun;
    [discriminate|].
  rewrite context_loop_cons in Hrun.
  destruct (doc !! "content"%string) as [[|[|c s]|n|f]|]; eauto.
  - cbv zeta in Hrun. destruct (_ >? _); [|eauto].
    destruct chunks; discriminate.
  - destruct (n =? 0); [eauto|]. by injection Hrun as <-.
  - destruct (PrimFloat.eqb f 0%float); [eauto|]. by injection Hrun as <-.
Qed.

Lemma on_raise_exception {World} (e : exn) (st : @state World) :
  exn_is_exception e = true -> on_raise e st = handle_exception e st.
Proof. intros H. unfold on_raise. rewrite H. reflexivity. Qed.

Lemma on_raise_other {World} (e : exn) (st : @state World) :
  exn_is_exception e = false -> on_raise e st = (Raised e, st).
Proof. intros H. unfold on_raise. rewrite H. reflexivity. Qed.

(** ** Runs of the pipeline *)

Section Runs.

Context {World : Type}.
Variable search_documents_text_only :
  pystr -> Z -> World -> outcome (list dict) * World.
Variable generate_response :
  pystr -> pystr -> list pystr -> float -> World -> outcome pystr * World.

Let run := rag_answer search_documents_text_only generate_response.

Ltac unfold_run :=
  unfold run, rag_answer, try_except, rag_answer_body, bind, call_search,
    call_generate, lift, ret.

Lemma handle_exception_returns (e : exn) (st : @state World) :
  exists answer,
    handle_exception e st = (Returned (make_result answer []), st).
Proof.
  unfold handle_exception, ret.
  destruct (is_rate_limit (exn_message e)); by eexists.
Qed.

Lemma run_search_raises q k t (st : @state World) e w :
  search_documents_text_only q k (world st) = (Raised e, w) ->
  run q k t st = on_raise e (State w (calls st ++ [SearchCall q k])).
Proof. intros H. unfold_run. rewrite H. reflexivity. Qed.

Lemma run_no_results q k t (st : @state World) w :
  search_documents_text_only q k (world st) = (Returned [], w) ->
  run q k t st = (Returned (make_result NO_RESULTS_ANSWER []),
                  State w (calls st ++ [SearchCall q k])).
Proof. intros H. unfold_run. rewrite H. reflexivity. Qed.

Lemma run_context_raises q k t (st : @state World) docs w e :
  search_documents_text_only q k (world st) = (Returned docs, w) ->
  docs <> [] ->
  build_context docs = Raised e ->
  run q k t st = on_raise e (State w (calls st ++ [SearchCall q k])).
Proof.
  intros H Hne Hctx. unfold_run. rewrite H.
  destruct docs as [|doc docs]; [by destruct Hne|]. rewrite Hctx. reflexivity.
Qed.

Lemma run_no_text q k t (st : @state World) docs w :
  search_documents_text_only q k (world st) = (Returned docs, w) ->
  docs <> [] ->
  build_context docs = Returned [] ->
  run q k t st = (Returned (make_result NO_TEXT_ANSWER []),
                  State w (calls st ++ [SearchCall q k])).
Proof.
  intros H Hne Hctx. unfold_run. rewrite H.
  destruct docs as [|doc docs]; [by destruct Hne|]. rewrite Hctx. reflexivity.
Qed.

Lemma run_generate_raises q k t (st : @state World) docs w chunks e w' :
  search_documents_text_only q k (world st) = (Returned docs, w) ->
  docs <> [] ->
  build_context docs = Returned chunks ->
  chunks <> [] ->
  generate_response system_prompt q chunks t w = (Raised e, w') ->
  run q k t st =
  on_raise e
    (State w' (calls st ++ [SearchCall q k]
               ++ [GenerateCall system_prompt q chunks t])).
Proof.
  intros H Hne Hctx Hchunks Hgen. unfold_run. rewrite H.
  destruct docs as [|doc docs]; [by destruct Hne|]. rewrite Hctx.
  destruct chunks as [|chunk chunks]; [by destruct Hchunks|]. cbn [world calls]. rewrite Hgen.
  rewrite <- app_assoc. reflexivity.
Qed.

Lemma run_success q k t (st : @state World) docs w chunks answer w' :
  search_documents_text_only q k (world st) = (Returned docs, w) ->
  docs <> [] ->
  build_context docs = Returned chunks ->
  chunks <> [] ->
  generate_response system_prompt q chunks t w = (Returned answer, w') ->
  run q k t st =
  (Returned (make_result answer (build_sources docs)),
   State w' (calls st ++ [SearchCall q k]
             ++ [GenerateCall system_prompt q chunks t])).
Proof.
  intros H Hne Hctx Hchunks Hgen. unfold_run. rewrite H.
  destruct docs as [|doc docs]; [by destruct Hne|]. rewrite Hctx.
  destruct chunks as [|chunk chunks]; [by destruct Hchunks|]. cbn [world calls]. rewrite Hgen.
  rewrite <- app_assoc. reflexivity.
Qed.

(** C1, amended: when every exception that the two gateways raise during
    the call is an instance of [Exception], [rag_answer] returns a
    dictionary with a string under ["answer"] and a list under
    ["sources"]; no such exception reaches the caller. *)
Theorem rag_answer_catches_exceptions q k t (st : @state World) :
  (forall e w,
     search_documents_text_only q k (world st) = (Raised e, w) ->
     exn_is_exception e = true) ->
  (forall chunks w e w',
     generate_response system_prompt q chunks t w = (Raised e, w') ->
     exn_is_exception e = true) ->
  exists (r : result) (st' : @state World) (answer : pystr)
         (sources : list dict),
    run q k t st = (Returned r, st')
    /\ r !! "answer"%string = Some (RStr answer)
    /\ r !! "sources"%string = Some (RList sources).
Proof.
  intros Hsearch Hgenerate.
  assert (forall e (st1 : @state World),
            exn_is_exception e = true ->
            exists r st' answer sources,
              on_raise e st1 = (Returned r, st')
              /\ r !! "answer"%string = Some (RStr answer)
              /\ r !! "sources"%string = Some (RList sources)) as Hhandler.
  { intros e st1 He. rewrite on_raise_exception by exact He.
    destruct (handle_exception_returns e st1) as [a Ha].
    exists (make_result a []), st1, a, []. rewrite Ha.
    split; [reflexivity|].
    split; [apply make_result_answer|apply make_result_sources]. }
  destruct (search_documents_text_only q k (world st)) as [[docs|e] w] eqn:Hs.
  2: { erewrite run_search_raises by exact Hs. apply Hhandler.
       by eapply Hsearch. }
  destruct docs as [|doc docs].
  { erewrite run_no_results by exact Hs.
    eexists _, _, _, _. split; [reflexivity|].
    split; [apply make_result_answer|apply make_result_sources]. }
  destruct (build_context (doc :: docs)) as [chunks|e] eqn:Hc.
  2: { erewrite run_context_raises by (try exact Hs; try exact Hc; discriminate).
       apply Hhandler.
       by eapply context_loop_raises_exception. }
  destruct chunks as [|chunk chunks].
  { erewrite run_no_text by (try exact Hs; try exact Hc; discriminate).
    eexists _, _, _, _. split; [reflexivity|].
    split; [apply make_result_answer|apply make_result_sources]. }
  destruct (generate_response system_prompt q (chunk :: chunks) t w)
    as [[answer|e] w'] eqn:Hg.
  - erewrite run_success
      by (try exact Hs; try exact Hc; try exact Hg; discriminate).
    eexists _, _, _, _. split; [reflexivity|].
    split; [apply make_result_answer|apply make_result_sources].
  - erewrite run_generate_raises
      by (try exact Hs; try exact Hc; try exact Hg; discriminate).
    apply Hhandler. by eapply Hgenerate.
Qed.

(** C5: when the search returns an empty list, [rag_answer] returns the
    fixed "no relevant information" answer with empty sources; the only
    gateway call made is the search, so the Generation Gateway is not
    invoked. *)
Theorem empty_search_short_circuits q k t (st : @state World) w :
  search_documents_text_only q k (world st) = (Returned [], w) ->
  exists st' : @state World,
    run q k t st = (Returned (make_result NO_RESULTS_ANSWER []), st')
    /\ world st' = w
    /\ calls st' = calls st ++ [SearchCall q k]
    /\ generate_calls (calls st') = generate_calls (calls st).
Proof.
  intros Hs. eexists. split; [by apply run_no_results|].
  cbn [world calls]. split; [reflexivity|]. split; [reflexivity|].
  apply generate_calls_search.
Qed.

(** C8: when the search returns a non-empty list in which every passage has
    no content, or [None] or the empty string as content, [rag_answer]
    returns the fixed "documents found but no usable text" answer with
    empty sources, and the Generation Gateway is not invoked. *)
Theorem no_text_short_circuits q k t (st : @state World) docs w :
  search_documents_text_only q k (world st) = (Returned docs, w) ->
  docs <> [] ->
  Forall no_text docs ->
  exists st' : @state World,
    run q k t st = (Returned (make_result NO_TEXT_ANSWER []), st')
    /\ world st' = w
    /\ calls st' = calls st ++ [SearchCall q k]
    /\ generate_calls (calls st') = generate_calls (calls st).
Proof.
  intros Hs Hne Hdocs. eexists. split.
  - apply run_no_text with (docs := docs); [exact Hs|exact Hne|].
    by apply context_loop_no_text.
  - cbn [world calls]. split; [reflexivity|]. split; [reflexivity|].
    apply generate_calls_search.
Qed.

(** C4: when the search returns at least one result and the generation
    call returns, the sources list has one entry per search result, in the
    order of the results; the entry of a result holds its source and score
    (or their defaults), its path exactly when the result has one, and no
    other key. Nothing in it depends on the chunks that were built. *)
Theorem sources_follow_search_results q k t (st : @state World)
    docs w chunks answer w' :
  search_documents_text_only q k (world st) = (Returned docs, w) ->
  docs <> [] ->
  build_context docs = Returned chunks ->
  chunks <> [] ->
  generate_response system_prompt q chunks t w = (Returned answer, w') ->
  exists (sources : list dict) (st' : @state World),
    run q k t st = (Returned (make_result answer sources), st')
    /\ length sources = length docs
    /\ forall (i : nat) (doc : dict),
         docs !! i = Some doc ->
         exists entry : dict,
           sources !! i = Some entry
           /\ entry !! "source"%string
              = Some (dict_get doc "source" (VStr (u "Unknown")))
           /\ entry !! "score"%string
              = Some (dict_get doc "score" (VFloat 0%float))
           /\ entry !! "path"%string = doc !! "path"%string
           /\ forall key : string,
                key <> "source"%string -> key <> "score"%string ->
                key <> "path"%string -> entry !! key = None.
Proof.
  intros Hs Hne Hc Hchunks Hg.
  exists (build_sources docs). eexists.
  split; [by eapply run_success|].
  split; [apply length_map|].
  intros i doc Hi. exists (make_source_info doc).
  rewrite build_sources_lookup, Hi. split; [reflexivity|].
  rewrite !make_source_info_lookup.
  repeat split.
  intros key H1 H2 H3. rewrite make_source_info_lookup.
  repeat case_decide; congruence.
Qed.

(** C10: on the success path the entry of a search result without a
    ["source"] key has the string "Unknown" as source, the entry of a
    result without a ["score"] key has the score 0.0, and no entry has a
    ["pageNumber"] key, whatever the result holds under it. *)
Theorem source_entry_defaults q k t (st : @state World)
    docs w chunks answer w' :
  search_documents_text_only q k (world st) = (Returned docs, w) ->
  docs <> [] ->
  build_context docs = Returned chunks ->
  chunks <> [] ->
  generate_response system_prompt q chunks t w = (Returned answer, w') ->
  exists (sources : list dict) (st' : @state World),
    run q k t st = (Returned (make_result answer sources), st')
    /\ forall (i : nat) (doc : dict),
         docs !! i = Some doc ->
         exists entry : dict,
           sources !! i = Some entry
           /\ (doc !! "source"%string = None ->
               entry !! "source"%string = Some (VStr (u "Unknown")))
           /\ (doc !! "score"%string = None ->
               entry !! "score"%string = Some (VFloat 0%float))
           /\ entry !! "pageNumber"%string = None.
Proof.
  intros Hs Hne Hc Hchunks Hg.
  exists (build_sources docs). eexists.
  split; [by eapply run_success|].
  intros i doc Hi. exists (make_source_info doc).
  rewrite build_sources_lookup, Hi. split; [reflexivity|].
  rewrite !make_source_info_lookup. unfold dict_get.
  split; [by intros ->|]. split; [by intros ->|]. reflexivity.
Qed.

(** C3, amended: when the generation call raises an instance of
    [Exception], of any class name, whose message contains the phrase
    "Límite de tasa alcanzado" as written, or contains "rate limit" in any
    letter case, [rag_answer] returns the rate-limit answer (the rate-limit
    heading, the message, and the request to wait) with empty sources; when
    the message contains neither the phrase as written nor, once lowered,
    the marker, it returns the generic error answer with empty sources. *)
Theorem rate_limit_classification q k t (st : @state World)
    docs w chunks e w' :
  search_documents_text_only q k (world st) = (Returned docs, w) ->
  docs <> [] ->
  build_context docs = Returned chunks ->
  chunks <> [] ->
  generate_response system_prompt q chunks t w = (Raised e, w') ->
  exn_is_exception e = true ->
  let msg := exn_message e in
  let st' := State w' (calls st ++ [SearchCall q k]
                       ++ [GenerateCall system_prompt q chunks t]) in
  ((exists pre post, msg = pre ++ RATE_LIMIT_PHRASE ++ post)
   \/ occurs_ignoring_ascii_case RATE_LIMIT_MARKER msg ->
   run q k t st
   = (Returned (make_result (RATE_LIMIT_HEAD ++ msg ++ RATE_LIMIT_TAIL) []),
      st'))
  /\ (~ (exists pre post, msg = pre ++ RATE_LIMIT_PHRASE ++ post) ->
      ~ (exists pre post, py_lower msg = pre ++ RATE_LIMIT_MARKER ++ post) ->
      run q k t st
      = (Returned (make_result
                     (GENERIC_ERROR_HEAD ++ msg ++ GENERIC_ERROR_TAIL) []),
         st')).
Proof.
  intros Hs Hne Hc Hchunks Hg He msg st'.
  assert (run q k t st = handle_exception e st') as ->.
  { unfold run. erewrite run_generate_raises by eassumption.
    by apply on_raise_exception. }
  split.
  - intros Hlimit. apply handle_exception_rate_limit.
    destruct Hlimit as [H|H];
      [by apply is_rate_limit_phrase|by apply is_rate_limit_marker].
  - intros H1 H2. apply handle_exception_generic.
    by apply is_rate_limit_other.
Qed.

End Runs.

(** ** The claims on concrete runs *)

Lemma rag_answer_catches_exceptions_witness :
  exists (r : result) (st' : @state nat) (answer : pystr)
         (sources : list dict),
    rag_answer (stub_search (Raised rate_limit_error))
               (stub_generate (Raised rate_limit_error))
               question 3 1%float start
    = (Returned r, st')
    /\ r !! "answer"%string = Some (RStr answer)
    /\ r !! "sources"%string = Some (RList sources).
Proof.
  apply (rag_answer_catches_exceptions
           (stub_search (Raised rate_limit_error))
           (stub_generate (Raised rate_limit_error))
           question 3 1%float start).
  - intros e w Hraise. injection Hraise as <- _. reflexivity.
  - intros chunks w e w' Hraise. injection Hraise as <- _. reflexivity.
Defined.

(** C1, refuted as stated: a [KeyboardInterrupt] raised by the Search
    Gateway, and a [SystemExit] raised by the Generation Gateway, are not
    instances of [Exception]; [rag_answer] returns no dictionary and the
    exception reaches the caller. *)
Lemma interrupt_reaches_caller :
  rag_answer (stub_search (Raised keyboard_interrupt))
             (stub_generate (Returned reply)) question 3 1%float start
  = (Raised keyboard_interrupt, State 1%nat [SearchCall question 3])
  /\ rag_answer (stub_search (Returned [doc_manual]))
                (stub_generate (Raised system_exit_rate_limit))
                question 3 1%float start
     = (Raised system_exit_rate_limit,
        State 2%nat
              [SearchCall question 3;
               GenerateCall system_prompt question
                 [u "Pulse MODE dos veces para calibrar."] 1%float]).
Proof. split; vm_compute; reflexivity. Qed.

Lemma empty_search_short_circuits_witness :
  exists st' : @state nat,
    rag_answer (stub_search (Returned [])) (stub_generate (Returned reply))
               question 3 1%float start
    = (Returned (make_result NO_RESULTS_ANSWER []), st')
    /\ world st' = 1%nat
    /\ calls st' = calls start ++ [SearchCall question 3]
    /\ generate_calls (calls st') = generate_calls (calls start).
Proof.
  apply (empty_search_short_circuits
           (stub_search (Returned [])) (stub_generate (Returned reply))
           question 3 1%float start 1%nat).
  reflexivity.
Defined.

Lemma no_text_short_circuits_witness :
  exists st' : @state nat,
    rag_answer (stub_search (Returned textless_results))
               (stub_generate (Returned reply)) question 3 1%float start
    = (Returned (make_result NO_TEXT_ANSWER []), st')
    /\ world st' = 1%nat
    /\ calls st' = calls start ++ [SearchCall question 3]
    /\ generate_calls (calls st') = generate_calls (calls start).
Proof.
  apply (no_text_short_circuits
           (stub_search (Returned textless_results))
           (stub_generate (Returned reply))
           question 3 1%float start textless_results 1%nat).
  - reflexivity.
  - discriminate.
  - apply Forall_cons. split; [right; right; reflexivity|].
    apply Forall_cons. split; [right; left; reflexivity|].
    apply Forall_cons. split; [left; reflexivity|].
    apply Forall_nil_2.
Defined.

Lemma sources_follow_search_results_witness :
  exists (sources : list dict) (st' : @state nat),
    rag_answer (stub_search (Returned mixed_results))
               (stub_generate (Returned reply)) question 3 1%float start
    = (Returned (make_result reply sources), st')
    /\ length sources = length mixed_results
    /\ forall (i : nat) (doc : dict),
         mixed_results !! i = Some doc ->
         exists entry : dict,
           sources !! i = Some entry
           /\ entry !! "source"%string
              = Some (dict_get doc "source" (VStr (u "Unknown")))
           /\ entry !! "score"%string
              = Some (dict_get doc "score" (VFloat 0%float))
           /\ entry !! "path"%string = doc !! "path"%string
           /\ forall key : string,
                key <> "source"%string -> key <> "score"%string ->
                key <> "path"%string -> entry !! key = None.
Proof.
  apply (sources_follow_search_results
           (stub_search (Returned mixed_results))
           (stub_generate (Returned reply))
           question 3 1%float start mixed_results 1%nat mixed_chunks
           reply 2%nat).
  - reflexivity.
  - discriminate.
  - vm_compute. reflexivity.
  - discriminate.
  - reflexivity.
Defined.

Lemma source_entry_defaults_witness :
  exists (sources : list dict) (st' : @state nat),
    rag_answer (stub_search (Returned mixed_results))
               (stub_generate (Returned reply)) question 3 1%float start
    = (Returned (make_result reply sources), st')
    /\ forall (i : nat) (doc : dict),
         mixed_results !! i = Some doc ->
         exists entry : dict,
           sources !! i = Some entry
           /\ (doc !! "source"%string = None ->
               entry !! "source"%string = Some (VStr (u "Unknown")))
           /\ (doc !! "score"%string = None ->
               entry !! "score"%string = Some (VFloat 0%float))
           /\ entry !! "pageNumber"%string = None.
Proof.
  apply (source_entry_defaults
           (stub_search (Returned mixed_results))
           (stub_generate (Returned reply))
           question 3 1%float start mixed_results 1%nat mixed_chunks
           reply 2%nat).
  - reflexivity.
  - discriminate.
  - vm_compute. reflexivity.
  - discriminate.
  - reflexivity.
Defined.

Lemma rate_limit_classification_witness :
  rag_answer (stub_search (Returned [doc_manual]))
             (stub_generate (Raised rate_limit_error))
             question 3 1%float start
  = (Returned (make_result
                 (RATE_LIMIT_HEAD ++ exn_message rate_limit_error
                  ++ RATE_LIMIT_TAIL) []),
     State 2%nat
           (calls start ++ [SearchCall question 3]
            ++ [GenerateCall system_prompt question
                  [u "Pulse MODE dos veces para calibrar."] 1%float])).
Proof.
  refine (proj1 (rate_limit_classification
                   (stub_search (Returned [doc_manual]))
                   (stub_generate (Raised rate_limit_error))
                   question 3 1%float start [doc_manual] 1%nat
                   [u "Pulse MODE dos veces para calibrar."]
                   rate_limit_error 2%nat _ _ _ _ _ _) _).
  - reflexivity.
  - discriminate.
  - vm_compute. reflexivity.
  - discriminate.
  - reflexivity.
  - reflexivity.
  - right. exists (u "HTTP 429: "), (u "Rate Limit"), (u " exceeded").
    split; vm_compute; reflexivity.
Defined.

(** C3, refuted as stated: the message "límite de tasa alcanzado" is the
    localized phrase up to letter case, yet the answer is the generic error
    answer, which does not start with the rate-limit heading. *)
Lemma lowercase_phrase_takes_generic_branch :
  same_ignoring_ascii_case (exn_message lowercase_phrase_error)
                           RATE_LIMIT_PHRASE
  /\ rag_answer (stub_search (Returned [doc_manual]))
               (stub_generate (Raised lowercase_phrase_error))
               question 3 1%float start
     = (Returned (make_result
                    (GENERIC_ERROR_HEAD ++ exn_message lowercase_phrase_error
                     ++ GENERIC_ERROR_TAIL) []),
        State 2%nat
              [SearchCall question 3;
               GenerateCall system_prompt question
                 [u "Pulse MODE dos veces para calibrar."] 1%float])
  /\ startswith RATE_LIMIT_HEAD
       (GENERIC_ERROR_HEAD ++ exn_message lowercase_phrase_error
        ++ GENERIC_ERROR_TAIL) = false.
Proof. split; [|split]; vm_compute; reflexivity. Qed.

(** ** More about the context loop *)

Lemma usable_contents_nonempty (docs : list dict) :
  Forall (fun content => content <> []) (usable_contents docs).
Proof.
  induction docs as [|doc rest IH]; [constructor|].
  rewrite usable_contents_cons. unfold usable_content.
  destruct (doc !! "content"%string) as [[|[|c s]|n|f]|]; try exact IH.
  constructor; [discriminate|exact IH].
Qed.

Lemma truncate_chunk_nonempty (content : pystr) :
  content <> [] -> truncate_chunk content <> [].
Proof.
  intros Hne Hnil.
  destruct (Z.le_gt_cases (len content) MAX_CHARS_PER_CHUNK) as [H|H].
  - rewrite truncate_chunk_short in Hnil by exact H. by destruct Hne.
  - rewrite truncate_chunk_long in Hnil by lia.
    apply (f_equal len) in Hnil.
    rewrite len_app, len_TRUNCATION_MARKER in Hnil.
    pose proof (len_nonneg (slice_to MAX_CHARS_PER_CHUNK content)).
    unfold len in Hnil at 2. simpl in Hnil. lia.
Qed.

Lemma context_loop_extends (docs : list dict) :
  forall (chunks : list pystr) (total : Z) (out : list pystr),
    context_loop docs chunks total = Returned out -> chunks `prefix_of` out.
Proof.
  induction docs as [|doc rest IH]; intros chunks total out Hrun.
  - injection Hrun as <-. reflexivity.
  - rewrite context_loop_cons in Hrun.
    destruct (doc !! "content"%string) as [[|[|c s]|n|f]|]; eauto.
    + cbv zeta in Hrun. destruct (_ >? _).
      * destruct chunks; injection Hrun as <-;
          [apply prefix_nil|reflexivity].
      * apply IH in Hrun. etrans; [|exact Hrun]. by apply prefix_app_r.
    + destruct (n =? 0); [eauto|discriminate].
    + destruct (PrimFloat.eqb f 0%float); [eauto|discriminate].
Qed.

(** The loop takes the candidates of the non-empty contents in order and
    stops at the first one that does not fit. *)
Lemma context_loop_greedy (docs : list dict) :
  forall (chunks : list pystr) (total : Z) (out : list pystr),
    total = context_length chunks ->
    context_loop docs chunks total = Returned out ->
    exists n : nat,
      out = chunks ++ map truncate_chunk (take n (usable_contents docs))
      /\ (n <= length (usable_contents docs))%nat
      /\ (n = length (usable_contents docs)
          \/ exists next,
               usable_contents docs !! n = Some next
               /\ out <> []
               /\ context_length out + len (truncate_chunk next)
                  > MAX_TOTAL_CONTEXT).
Proof.
  induction docs as [|doc rest IH]; intros chunks total out Htotal Hrun.
  - injection Hrun as <-. exists 0%nat. rewrite app_nil_r.
    split; [reflexivity|]. split; [reflexivity|]. by left.
  - rewrite context_loop_cons in Hrun.
    rewrite usable_contents_cons. unfold usable_content.
    destruct (doc !! "content"%string) as [[|[|c s]|n|f]|]; eauto.
    + cbv zeta in Hrun.
      destruct (Z.gtb_spec (total + len (truncate_chunk (c :: s)))
                           MAX_TOTAL_CONTEXT) as [Hover|Hfits].
      * destruct chunks as [|c0 chunks].
        { simpl in Htotal. subst total.
          pose proof (len_truncate_chunk (c :: s)) as Hdead.
          rewrite len_TRUNCATION_MARKER in Hdead.
          unfold MAX_TOTAL_CONTEXT, MAX_CHARS_PER_CHUNK in *. lia. }
        injection Hrun as <-. exists 0%nat. rewrite app_nil_r.
        split; [reflexivity|]. split; [simpl; lia|]. right.
        exists (c :: s). split; [reflexivity|]. split; [discriminate|].
        lia.
      * apply IH in Hrun as (n & -> & Hle & Hstop).
        2: { rewrite context_length_app, context_length_singleton. lia. }
        exists (S n). split; [by rewrite <- app_assoc|].
        split; [simpl; lia|].
        destruct Hstop as [->|(next & Hnext & Hne & Hover)]; [by left|].
        right. exists next. split; [exact Hnext|]. split; [exact Hne|].
        exact Hover.
    + destruct (n =? 0); [eauto|discriminate].
    + destruct (PrimFloat.eqb f 0%float); [eauto|discriminate].
Qed.

Lemma build_context_greedy (docs : list dict) (out : list pystr) :
  build_context docs = Returned out ->
  exists n : nat,
    out = map truncate_chunk (take n (usable_contents docs))
    /\ (n <= length (usable_contents docs))%nat
    /\ (n = length (usable_contents docs)
        \/ exists next,
             usable_contents docs !! n = Some next
             /\ out <> []
             /\ context_length out + len (truncate_chunk next)
                > MAX_TOTAL_CONTEXT).
Proof. intros Hrun. by apply context_loop_greedy in Hrun. Qed.

(** What makes the loop raise. *)
Lemma context_loop_raises (docs : list dict) :
  forall (chunks : list pystr) (total : Z) (e : exn),
    context_loop docs chunks total = Raised e ->
    exists (doc : dict) (v : pyval),
      doc ∈ docs
      /\ doc !! "content"%string = Some v
      /\ ((exists n, v = VInt n /\ n <> 0)
          \/ (exists f, v = VFloat f /\ PrimFloat.eqb f 0%float = false))
      /\ e = no_len_error v.
Proof.
  induction docs as [|doc rest IH]; intros chunks total e Hrun;
    [discriminate|].
  rewrite context_loop_cons in Hrun.
  assert (forall chunks total,
            context_loop rest chunks total = Raised e ->
            exists (d : dict) (v : pyval),
              d ∈ doc :: rest /\ d !! "content"%string = Some v
              /\ ((exists n, v = VInt n /\ n <> 0)
                  \/ (exists f, v = VFloat f
                                /\ PrimFloat.eqb f 0%float = false))
              /\ e = no_len_error v) as Hrest.
  { intros chunks' total' H. apply IH in H as (d & v & Hin & Hrest).
    exists d, v. split; [by apply list_elem_of_further|exact Hrest]. }
  destruct (doc !! "content"%string) as [[|[|c s]|n|f]|] eqn:Hdoc; eauto.
  - cbv zeta in Hrun. destruct (_ >? _); [|eauto].
    destruct chunks; discriminate.
  - destruct (Z.eqb_spec n 0); [eauto|]. injection Hrun as <-.
    exists doc, (VInt n). split; [apply list_elem_of_here|].
    split; [exact Hdoc|]. split; [left; eauto|reflexivity].
  - destruct (PrimFloat.eqb f 0%float) eqn:Hf; [eauto|].
    injection Hrun as <-.
    exists doc, (VFloat f). split; [apply list_elem_of_here|].
    split; [exact Hdoc|]. split; [right; eauto|reflexivity].
Qed.

Lemma context_length_truncated (contents : list pystr) :
  2020 * Z.of_nat (length (filter (fun s => MAX_CHARS_PER_CHUNK < len s)
                                  contents))
  <= context_length (map truncate_chunk contents).
Proof.
  induction contents as [|s contents IH]; [reflexivity|].
  rewrite filter_cons. cbn [map context_length foldr].
  fold (context_length (map truncate_chunk contents)).
  pose proof (len_nonneg (truncate_chunk s)).
  case_decide as Hlong; [|lia].
  rewrite truncate_chunk_long by lia.
  rewrite len_app, len_TRUNCATION_MARKER, len_slice_to by done.
  cbn [length]. unfold MAX_CHARS_PER_CHUNK in *. lia.
Qed.

(** X1: the bundle is the longest run of candidates, taken from the first
    non-empty content on, that fits the budget: it holds the candidates of
    the first [length out] non-empty contents, and either all of them are
    in or the next candidate would take the total above 6000. *)
Theorem bundle_is_longest_fitting_prefix (docs : list dict)
    (out : list pystr) :
  build_context docs = Returned out ->
  out = map truncate_chunk (take (length out) (usable_contents docs))
  /\ (length out = length (usable_contents docs)
      \/ exists next : pystr,
           usable_contents docs !! length out = Some next
           /\ out <> []
           /\ context_length out + len (truncate_chunk next)
              > MAX_TOTAL_CONTEXT).
Proof.
  intros Hrun. apply build_context_greedy in Hrun as (n & Hout & Hle & Hstop).
  assert (length out = n) as Hlen.
  { rewrite Hout, length_map, length_take. lia. }
  rewrite Hlen. split; [exact Hout|exact Hstop].
Qed.

Lemma bundle_is_longest_fitting_prefix_witness :
  [truncate_chunk long_passage; truncate_chunk long_passage]
  = map truncate_chunk (take 2 (usable_contents scenario_c))
  /\ (2%nat = length (usable_contents scenario_c)
      \/ exists next : pystr,
           usable_contents scenario_c !! 2%nat = Some next
           /\ [truncate_chunk long_passage; truncate_chunk long_passage] <> []
           /\ context_length
                [truncate_chunk long_passage; truncate_chunk long_passage]
              + len (truncate_chunk next) > MAX_TOTAL_CONTEXT).
Proof.
  apply (bundle_is_longest_fitting_prefix scenario_c
           [truncate_chunk long_passage; truncate_chunk long_passage]).
  vm_compute. reflexivity.
Defined.

(** X2: the bundle is empty exactly when no passage has a non-empty string
    content; otherwise its first chunk is the candidate of the first
    non-empty content, and no chunk is the empty string. *)
Theorem bundle_empty_iff_no_text (docs : list dict) (out : list pystr) :
  build_context docs = Returned out ->
  (out = [] <-> usable_contents docs = [])
  /\ (forall first : pystr,
        head (usable_contents docs) = Some first ->
        head out = Some (truncate_chunk first))
  /\ Forall (fun chunk => chunk <> []) out.
Proof.
  intros Hrun. apply build_context_greedy in Hrun as (n & Hout & Hle & Hstop).
  assert (usable_contents docs <> [] -> (0 < n)%nat) as Hpos.
  { intros Hne. destruct Hstop as [->|(next & _ & Hnonempty & _)].
    - destruct (usable_contents docs); [by destruct Hne|simpl; lia].
    - destruct n; [|lia]. by destruct Hnonempty. }
  split; [|split].
  - split.
    + intros ->. destruct (usable_contents docs) as [|s l] eqn:E; [done|].
      assert (0 < n)%nat as Hn by (apply Hpos; discriminate).
      destruct n; [lia|]. discriminate.
    + intros Hnil. rewrite Hout, Hnil. by rewrite take_nil.
  - intros first Hfirst.
    destruct (usable_contents docs) as [|s l] eqn:E; [discriminate|].
    injection Hfirst as ->.
    assert (0 < n)%nat as Hn by (apply Hpos; discriminate).
    destruct n; [lia|]. rewrite Hout. reflexivity.
  - rewrite Hout. apply Forall_fmap.
    eapply Forall_impl; [apply Forall_take, usable_contents_nonempty|].
    intros content Hne. by apply truncate_chunk_nonempty.
Qed.

Lemma bundle_empty_iff_no_text_witness :
  (mixed_chunks = [] <-> usable_contents mixed_results = [])
  /\ (forall first : pystr,
        head (usable_contents mixed_results) = Some first ->
        head mixed_chunks = Some (truncate_chunk first))
  /\ Forall (fun chunk => chunk <> []) mixed_chunks.
Proof.
  apply (bundle_empty_iff_no_text mixed_results mixed_chunks).
  vm_compute. reflexivity.
Defined.

(** X3: at most two of the passages that enter the bundle are longer than
    2000 characters: a truncated passage costs 2020 characters with its
    marker, and three of them exceed the budget of 6000. *)
Theorem at_most_two_truncated_passages (docs : list dict)
    (out : list pystr) :
  build_context docs = Returned out ->
  (length (filter (fun content => (MAX_CHARS_PER_CHUNK < len content)%Z)
                  (take (length out) (usable_contents docs))) <= 2)%nat.
Proof.
  intros Hrun.
  apply build_context_spec in Hrun as (n & Hout & Hbound).
  assert (length out <= n)%nat as Hlen.
  { rewrite Hout, length_map, length_take. lia. }
  assert (take (length out) (usable_contents docs)
          = take n (usable_contents docs)) as ->.
  { rewrite Hout, length_map, length_take.
    destruct (Nat.min_spec n (length (usable_contents docs)))
      as [[_ ->]|[Hge ->]]; [reflexivity|].
    rewrite !take_ge by lia. reflexivity. }
  pose proof (context_length_truncated (take n (usable_contents docs))) as H.
  rewrite <- Hout in H. unfold MAX_TOTAL_CONTEXT in Hbound. lia.
Qed.

Lemma at_most_two_truncated_passages_witness :
  (length (filter (fun content => (MAX_CHARS_PER_CHUNK < len content)%Z)
                  (take (length [truncate_chunk long_passage;
                                 truncate_chunk long_passage])
                        (usable_contents scenario_c))) <= 2)%nat.
Proof.
  apply (at_most_two_truncated_passages scenario_c).
  vm_compute. reflexivity.
Defined.

Lemma context_loop_app_prefix (docs more : list dict) :
  forall (chunks : list pystr) (total : Z) (out out' : list pystr),
    context_loop docs chunks total = Returned out ->
    context_loop (docs ++ more) chunks total = Returned out' ->
    out `prefix_of` out'.
Proof.
  induction docs as [|doc rest IH]; intros chunks total out out' Hrun Hrun'.
  - injection Hrun as <-. by apply context_loop_extends in Hrun'.
  - rewrite <- app_comm_cons in Hrun'.
    rewrite context_loop_cons in Hrun, Hrun'.
    destruct (doc !! "content"%string) as [[|[|c s]|n|f]|]; eauto.
    + cbv zeta in Hrun, Hrun'. destruct (_ >? _); [|eauto].
      destruct chunks; injection Hrun as <-; injection Hrun' as <-;
        reflexivity.
    + destruct (n =? 0); [eauto|discriminate].
    + destruct (PrimFloat.eqb f 0%float); [eauto|discriminate].
Qed.

Lemma context_loop_break_final (docs more : list dict) :
  forall (chunks : list pystr) (total : Z) (out : list pystr),
    context_loop docs chunks total = Returned out ->
    (length out < length chunks + length (usable_contents docs))%nat ->
    context_loop (docs ++ more) chunks total = Returned out.
Proof.
  induction docs as [|doc rest IH]; intros chunks total out Hrun Hshort.
  - injection Hrun as <-. simpl in Hshort. lia.
  - rewrite <- app_comm_cons. rewrite context_loop_cons in Hrun |- *.
    rewrite usable_contents_cons in Hshort. unfold usable_content in Hshort.
    destruct (doc !! "content"%string) as [[|[|c s]|n|f]|]; eauto.
    + cbv zeta in Hrun |- *. destruct (_ >? _); [exact Hrun|].
      apply IH; [exact Hrun|]. rewrite length_app. simpl in *. lia.
    + destruct (n =? 0); [eauto|discriminate].
    + destruct (PrimFloat.eqb f 0%float); [eauto|discriminate].
Qed.

(** X4: when the search returns more results after the same first ones,
    the bundle keeps its chunks and can only grow at the end. *)
Theorem more_results_extend_bundle (docs more : list dict)
    (out out' : list pystr) :
  build_context docs = Returned out ->
  build_context (docs ++ more) = Returned out' ->
  out `prefix_of` out'.
Proof. apply context_loop_app_prefix. Qed.

Lemma more_results_extend_bundle_witness :
  [u "Pulse MODE dos veces para calibrar."] `prefix_of` mixed_chunks.
Proof.
  apply (more_results_extend_bundle [doc_manual] [doc_empty; doc_bare]).
  - vm_compute. reflexivity.
  - vm_compute. reflexivity.
Defined.

(** X5: once a candidate did not fit, the loop has stopped for good: the
    results after it are not read, so appending any results, even ones
    whose content is a number, leaves the bundle as it is. *)
Theorem results_after_break_ignored (docs more : list dict)
    (out : list pystr) :
  build_context docs = Returned out ->
  (length out < length (usable_contents docs))%nat ->
  build_context (docs ++ more) = Returned out.
Proof.
  intros Hrun Hshort. by apply context_loop_break_final.
Qed.

Lemma results_after_break_ignored_witness :
  build_context (scenario_c ++ [doc_number])
  = Returned [truncate_chunk long_passage; truncate_chunk long_passage].
Proof.
  apply (results_after_break_ignored scenario_c [doc_number]).
  - vm_compute. reflexivity.
  - vm_compute. lia.
Defined.

(** ** More about the runs of the pipeline *)

Lemma no_len_error_not_rate_limit (v : pyval) :
  is_rate_limit (exn_message (no_len_error v)) = false.
Proof. destruct v; vm_compute; reflexivity. Qed.

Lemma make_result_sources_inv (answer : pystr) (l sources : list dict) :
  make_result answer l !! "sources"%string = Some (RList sources) ->
  sources = l.
Proof. rewrite make_result_sources. by intros [= ->]. Qed.

Section Protocol.

Context {World : Type}.
Variable search_documents_text_only :
  pystr -> Z -> World -> outcome (list dict) * World.
Variable generate_response :
  pystr -> pystr -> list pystr -> float -> World -> outcome pystr * World.

Let run := rag_answer search_documents_text_only generate_response.

(** The six ways a run can go. *)
Lemma run_cases q k t (st : @state World) :
  (exists e w,
     search_documents_text_only q k (world st) = (Raised e, w)
     /\ run q k t st
        = on_raise e (State w (calls st ++ [SearchCall q k])))
  \/ (exists w,
        search_documents_text_only q k (world st) = (Returned [], w)
        /\ run q k t st
           = (Returned (make_result NO_RESULTS_ANSWER []),
              State w (calls st ++ [SearchCall q k])))
  \/ (exists docs w e,
        search_documents_text_only q k (world st) = (Returned docs, w)
        /\ docs <> [] /\ build_context docs = Raised e
        /\ run q k t st
           = on_raise e (State w (calls st ++ [SearchCall q k])))
  \/ (exists docs w,
        search_documents_text_only q k (world st) = (Returned docs, w)
        /\ docs <> [] /\ build_context docs = Returned []
        /\ run q k t st
           = (Returned (make_result NO_TEXT_ANSWER []),
              State w (calls st ++ [SearchCall q k])))
  \/ (exists docs w chunks e w',
        search_documents_text_only q k (world st) = (Returned docs, w)
        /\ docs <> [] /\ build_context docs = Returned chunks
        /\ chunks <> []
        /\ generate_response system_prompt q chunks t w = (Raised e, w')
        /\ run q k t st
           = on_raise e
               (State w' (calls st ++ [SearchCall q k]
                          ++ [GenerateCall system_prompt q chunks t])))
  \/ (exists docs w chunks answer w',
        search_documents_text_only q k (world st) = (Returned docs, w)
        /\ docs <> [] /\ build_context docs = Returned chunks
        /\ chunks <> []
        /\ generate_response system_prompt q chunks t w
           = (Returned answer, w')
        /\ run q k t st
           = (Returned (make_result answer (build_sources docs)),
              State w' (calls st ++ [SearchCall q k]
                        ++ [GenerateCall system_prompt q chunks t]))).
Proof.
  destruct (search_documents_text_only q k (world st)) as [[docs|e] w] eqn:Hs.
  2: { left. exists e, w. split; [reflexivity|].
       by apply run_search_raises. }
  destruct docs as [|doc docs].
  { right. left. exists w. split; [reflexivity|]. by apply run_no_results. }
  assert (doc :: docs <> []) as Hne by discriminate.
  destruct (build_context (doc :: docs)) as [chunks|e] eqn:Hc.
  2: { do 2 right. left. exists (doc :: docs), w, e.
       repeat (split; [done|]). by eapply run_context_raises. }
  destruct chunks as [|chunk chunks].
  { do 3 right. left. exists (doc :: docs), w.
    repeat (split; [done|]). by eapply run_no_text. }
  assert (chunk :: chunks <> []) as Hchunks by discriminate.
  destruct (generate_response system_prompt q (chunk :: chunks) t w)
    as [[answer|e] w'] eqn:Hg.
  - do 5 right. exists (doc :: docs), w, (chunk :: chunks), answer, w'.
    repeat (split; [done|]). by eapply run_success.
  - do 4 right. left. exists (doc :: docs), w, (chunk :: chunks), e, w'.
    repeat (split; [done|]). by eapply run_generate_raises.
Qed.

(** X6: an instance of [Exception] raised by the Search Gateway goes
    through the same handler as one raised by the generation: a message
    with the phrase as written, or with "rate limit" in any letter case,
    gives the rate-limit answer, any other message the generic error
    answer; in both cases the sources are empty and the Generation Gateway
    is not called. *)
Theorem search_failure_classification q k t (st : @state World) e w :
  search_documents_text_only q k (world st) = (Raised e, w) ->
  exn_is_exception e = true ->
  let msg := exn_message e in
  let st' := State w (calls st ++ [SearchCall q k]) in
  ((exists pre post, msg = pre ++ RATE_LIMIT_PHRASE ++ post)
   \/ occurs_ignoring_ascii_case RATE_LIMIT_MARKER msg ->
   run q k t st
   = (Returned (make_result (RATE_LIMIT_HEAD ++ msg ++ RATE_LIMIT_TAIL) []),
      st'))
  /\ (~ (exists pre post, msg = pre ++ RATE_LIMIT_PHRASE ++ post) ->
      ~ (exists pre post, py_lower msg = pre ++ RATE_LIMIT_MARKER ++ post) ->
      run q k t st
      = (Returned (make_result
                     (GENERIC_ERROR_HEAD ++ msg ++ GENERIC_ERROR_TAIL) []),
         st'))
  /\ generate_calls (calls st') = generate_calls (calls st).
Proof.
  intros Hs He msg st'.
  assert (run q k t st = handle_exception e st') as ->.
  { unfold run. erewrite run_search_raises by exact Hs.
    by apply on_raise_exception. }
  split; [|split].
  - intros Hlimit. apply handle_exception_rate_limit.
    destruct Hlimit as [H|H];
      [by apply is_rate_limit_phrase|by apply is_rate_limit_marker].
  - intros H1 H2. apply handle_exception_generic.
    by apply is_rate_limit_other.
  - apply generate_calls_search.
Qed.

(** X7: when the loop raises, some search result holds a non-zero number
    under ["content"]; [rag_answer] then returns the generic error answer
    that quotes the message of the [TypeError] of [len], with empty sources
    and without calling the Generation Gateway. *)
Theorem numeric_content_reported_as_error q k t (st : @state World)
    docs w e :
  search_documents_text_only q k (world st) = (Returned docs, w) ->
  build_context docs = Raised e ->
  exists (doc : dict) (v : pyval),
    doc ∈ docs
    /\ doc !! "content"%string = Some v
    /\ ((exists n, v = VInt n /\ n <> 0)
        \/ (exists f, v = VFloat f /\ PrimFloat.eqb f 0%float = false))
    /\ run q k t st
       = (Returned (make_result
                      (GENERIC_ERROR_HEAD
                       ++ (u "object of type '" ++ u (type_name v)
                           ++ u "' has no len()")
                       ++ GENERIC_ERROR_TAIL) []),
          State w (calls st ++ [SearchCall q k])).
Proof.
  intros Hs Hc.
  assert (docs <> []) as Hne by (intros ->; discriminate).
  pose proof Hc as Hraise.
  apply context_loop_raises in Hraise as (doc & v & Hin & Hdoc & Hv & ->).
  exists doc, v. repeat (split; [done|]).
  unfold run. erewrite run_context_raises by (try exact Hs; done).
  rewrite on_raise_exception by reflexivity.
  apply (handle_exception_generic (no_len_error v)).
  apply no_len_error_not_rate_limit.
Qed.

(** X8: every run, whether it returns or lets an exception pass, makes one
    search call, with the question and [top_k] as given, followed by at
    most one generation call; that call carries the system prompt, the
    question and the temperature as given, and a bundle that is not empty,
    has no empty chunk and at most 6000 characters in all. *)
Theorem gateway_call_protocol q k t (st : @state World) :
  exists (o : outcome result) (st' : @state World),
    run q k t st = (o, st')
    /\ (calls st' = calls st ++ [SearchCall q k]
        \/ exists docs w chunks,
             search_documents_text_only q k (world st) = (Returned docs, w)
             /\ build_context docs = Returned chunks
             /\ chunks <> []
             /\ Forall (fun chunk => chunk <> []) chunks
             /\ context_length chunks <= MAX_TOTAL_CONTEXT
             /\ calls st'
                = calls st ++ [SearchCall q k]
                  ++ [GenerateCall system_prompt q chunks t]).
Proof.
  assert (forall e (st1 : @state World),
            exists o, on_raise e st1 = (o, st1)) as Hraise.
  { intros e st1. unfold on_raise. destruct (exn_is_exception e).
    - destruct (handle_exception_returns e st1) as [a ->]. by eexists.
    - by eexists. }
  assert (forall docs chunks,
            build_context docs = Returned chunks ->
            Forall (fun chunk => chunk <> []) chunks
            /\ context_length chunks <= MAX_TOTAL_CONTEXT) as Hbundle.
  { intros docs chunks Hc. split.
    - apply build_context_spec in Hc as (n & -> & _).
      apply Forall_fmap.
      eapply Forall_impl; [apply Forall_take, usable_contents_nonempty|].
      intros content Hne. by apply truncate_chunk_nonempty.
    - by apply build_context_spec in Hc as (n & _ & Hbound). }
  destruct (run_cases q k t st)
    as [(e & w & _ & Hrun)
       |[(w & _ & Hrun)
        |[(docs & w & e & _ & _ & _ & Hrun)
         |[(docs & w & _ & _ & _ & Hrun)
          |[(docs & w & chunks & e & w' & Hs & _ & Hc & Hne & _ & Hrun)
           |(docs & w & chunks & answer & w' & Hs & _ & Hc & Hne & _ & Hrun)
    ]]]]]; fold run in Hrun; rewrite Hrun.
  - destruct (Hraise e (State w (calls st ++ [SearchCall q k]))) as [o ->].
    eexists _, _. split; [reflexivity|by left].
  - eexists _, _. split; [reflexivity|by left].
  - destruct (Hraise e (State w (calls st ++ [SearchCall q k]))) as [o ->].
    eexists _, _. split; [reflexivity|by left].
  - eexists _, _. split; [reflexivity|by left].
  - destruct (Hraise e
                (State w' (calls st ++ [SearchCall q k]
                           ++ [GenerateCall system_prompt q chunks t])))
      as [o ->].
    eexists _, _. split; [reflexivity|]. right. exists docs, w, chunks.
    destruct (Hbundle docs chunks Hc). by repeat split.
  - eexists _, _. split; [reflexivity|]. right. exists docs, w, chunks.
    destruct (Hbundle docs chunks Hc). by repeat split.
Qed.

(** X9: a returned sources list that is not empty means that the run went
    all the way: the search returned results, the generation call
    returned, the answer is the generated text and the sources are those
    of the search results. Every other path returns empty sources. *)
Theorem nonempty_sources_mean_success q k t (st st' : @state World)
    (r : result) (sources : list dict) :
  run q k t st = (Returned r, st') ->
  r !! "sources"%string = Some (RList sources) ->
  sources <> [] ->
  exists docs w chunks answer,
    search_documents_text_only q k (world st) = (Returned docs, w)
    /\ build_context docs = Returned chunks
    /\ generate_response system_prompt q chunks t w
       = (Returned answer, world st')
    /\ r = make_result answer (build_sources docs)
    /\ sources = build_sources docs
    /\ length sources = length docs.
Proof.
  intros Hrun Hsources Hne.
  assert (forall e (st1 : @state World),
            on_raise e st1 = (Returned r, st') -> False) as Hhandler.
  { intros e st1 H. unfold on_raise in H.
    destruct (exn_is_exception e); [|discriminate].
    destruct (handle_exception_returns e st1) as [a Ha].
    rewrite Ha in H. injection H as <- _.
    apply make_result_sources_inv in Hsources. by destruct Hne. }
  assert (forall a (st1 : @state World),
            (Returned (make_result a []), st1) = (Returned r, st') -> False)
    as Hfixed.
  { intros a st1 H. injection H as <- _.
    apply make_result_sources_inv in Hsources. by destruct Hne. }
  destruct (run_cases q k t st)
    as [(e & w & _ & Hrun')
       |[(w & _ & Hrun')
        |[(docs & w & e & _ & _ & _ & Hrun')
         |[(docs & w & _ & _ & _ & Hrun')
          |[(docs & w & chunks & e & w' & _ & _ & _ & _ & _ & Hrun')
           |(docs & w & chunks & answer & w' & Hs & _ & Hc & _ & Hg & Hrun')
    ]]]]]; fold run in Hrun'; rewrite Hrun' in Hrun.
  - by destruct (Hhandler _ _ Hrun).
  - by destruct (Hfixed _ _ Hrun).
  - by destruct (Hhandler _ _ Hrun).
  - by destruct (Hfixed _ _ Hrun).
  - by destruct (Hhandler _ _ Hrun).
  - injection Hrun as <- <-. exists docs, w, chunks, answer.
    apply make_result_sources_inv in Hsources as ->.
    repeat (split; [done|]). apply length_map.
Qed.

(** X15: an exception that is not an instance of [Exception], raised by
    the search or by the generation, leaves [rag_answer] as it was raised:
    no answer is built, whatever its message says, and no further gateway
    call is made. *)
Theorem other_exceptions_propagate q k t (st : @state World) :
  (forall e w,
     search_documents_text_only q k (world st) = (Raised e, w) ->
     exn_is_exception e = false ->
     run q k t st = (Raised e, State w (calls st ++ [SearchCall q k])))
  /\ (forall docs w chunks e w',
        search_documents_text_only q k (world st) = (Returned docs, w) ->
        docs <> [] ->
        build_context docs = Returned chunks ->
        chunks <> [] ->
        generate_response system_prompt q chunks t w = (Raised e, w') ->
        exn_is_exception e = false ->
        run q k t st
        = (Raised e,
           State w' (calls st ++ [SearchCall q k]
                     ++ [GenerateCall system_prompt q chunks t]))).
Proof.
  split.
  - intros e w Hs He. unfold run. erewrite run_search_raises by exact Hs.
    by apply on_raise_other.
  - intros docs w chunks e w' Hs Hne Hc Hchunks Hg He. unfold run.
    erewrite run_generate_raises by eassumption.
    by apply on_raise_other.
Qed.

End Protocol.

Lemma other_exceptions_propagate_witness :
  rag_answer (stub_search (Returned [doc_manual]))
             (stub_generate (Raised system_exit_rate_limit))
             question 3 1%float start
  = (Raised system_exit_rate_limit,
     State 2%nat
           (calls start ++ [SearchCall question 3]
            ++ [GenerateCall system_prompt question
                  [u "Pulse MODE dos veces para calibrar."] 1%float])).
Proof.
  apply (proj2 (other_exceptions_propagate
                  (stub_search (Returned [doc_manual]))
                  (stub_generate (Raised system_exit_rate_limit))
                  question 3 1%float start)
           [doc_manual] 1%nat [u "Pulse MODE dos veces para calibrar."]).
  - reflexivity.
  - discriminate.
  - vm_compute. reflexivity.
  - discriminate.
  - reflexivity.
  - reflexivity.
Defined.

Lemma search_failure_classification_witness :
  rag_answer (stub_search (Raised rate_limit_error))
             (stub_generate (Returned reply)) question 3 1%float start
  = (Returned (make_result
                 (RATE_LIMIT_HEAD ++ exn_message rate_limit_error
                  ++ RATE_LIMIT_TAIL) []),
     State 1%nat (calls start ++ [SearchCall question 3])).
Proof.
  refine (proj1 (search_failure_classification
                   (stub_search (Raised rate_limit_error))
                   (stub_generate (Returned reply))
                   question 3 1%float start rate_limit_error 1%nat _ _) _).
  - reflexivity.
  - reflexivity.
  - right. exists (u "HTTP 429: "), (u "Rate Limit"), (u " exceeded").
    split; vm_compute; reflexivity.
Defined.

Lemma numeric_content_reported_as_error_witness :
  exists (doc : dict) (v : pyval),
    doc ∈ [doc_manual; doc_number]
    /\ doc !! "content"%string = Some v
    /\ ((exists n, v = VInt n /\ n <> 0)
        \/ (exists f, v = VFloat f /\ PrimFloat.eqb f 0%float = false))
    /\ rag_answer (stub_search (Returned [doc_manual; doc_number]))
                  (stub_generate (Returned reply)) question 3 1%float start
       = (Returned (make_result
                      (GENERIC_ERROR_HEAD
                       ++ (u "object of type '" ++ u (type_name v)
                           ++ u "' has no len()")
                       ++ GENERIC_ERROR_TAIL) []),
          State 1%nat (calls start ++ [SearchCall question 3])).
Proof.
  apply (numeric_content_reported_as_error
           (stub_search (Returned [doc_manual; doc_number]))
           (stub_generate (Returned reply))
           question 3 1%float start [doc_manual; doc_number] 1%nat
           (no_len_error (VInt 5))).
  - reflexivity.
  - vm_compute. reflexivity.
Defined.

Lemma nonempty_sources_mean_success_witness :
  exists docs w chunks answer,
    stub_search (Returned mixed_results) question 3 (world start)
    = (Returned docs, w)
    /\ build_context docs = Returned chunks
    /\ stub_generate (Returned reply) system_prompt question chunks 1%float w
       = (Returned answer,
          world (State 2%nat
                   [SearchCall question 3;
                    GenerateCall system_prompt question mixed_chunks
                                 1%float]))
    /\ make_result reply (build_sources mixed_results)
       = make_result answer (build_sources docs)
    /\ build_sources mixed_results = build_sources docs
    /\ length (build_sources mixed_results) = length docs.
Proof.
  apply (nonempty_sources_mean_success
           (stub_search (Returned mixed_results))
           (stub_generate (Returned reply))
           question 3 1%float start).
  - vm_compute. reflexivity.
  - apply make_result_sources.
  - intros Hnil. apply (f_equal length) in Hnil. vm_compute in Hnil.
    discriminate.
Defined.

(** ** The configuration loader *)

Lemma get_env_var_set (env : environ) (var_name : string) :
  is_set env var_name ->
  exists value : pystr,
    env !! var_name = Some value /\ value <> []
    /\ get_env_var env var_name true = Returned (Some value).
Proof.
  intros (value & Hvalue & Hne). exists value. unfold get_env_var.
  rewrite Hvalue. destruct value; [by destruct Hne|done].
Qed.

Lemma get_env_var_unset (env : environ) (var_name : string) :
  ~ is_set env var_name ->
  get_env_var env var_name true = Raised (missing_variable_error var_name).
Proof.
  intros Hunset. unfold get_env_var.
  destruct (env !! var_name) as [[|c value]|] eqn:Hvalue; try reflexivity.
  destruct Hunset. by exists (c :: value).
Qed.

Lemma get_env_var_required_inv (env : environ) (var_name : string)
    (field : option pystr) :
  get_env_var env var_name true = Returned field ->
  holds_variable env var_name field.
Proof.
  unfold get_env_var, holds_variable.
  destruct (env !! var_name) as [[|c value]|]; cbn; try discriminate.
  intros [= <-]. by exists (c :: value).
Qed.

Lemma get_env_var_optional (env : environ) (var_name : string) :
  get_env_var env var_name false = Returned (env !! var_name).
Proof. reflexivity. Qed.

Section ConfigFacts.

Variable py_int : pystr -> outcome Z.

(** X10: a configuration that [load_config] returns holds, in each of its
    six string fields, the non-empty value of the corresponding variable;
    its port is [None] when [STREAMLIT_SERVER_PORT] is unset or empty and
    otherwise the integer that [int] made of it. *)
Theorem load_config_fields (env : environ) (cfg : AppConfig.t) :
  load_config py_int env = Returned cfg ->
  let search := AppConfig.azure_search cfg in
  let openai := AppConfig.azure_openai cfg in
  holds_variable env "AZURE_SEARCH_ENDPOINT"
                 (AzureSearchConfig.endpoint search)
  /\ holds_variable env "AZURE_SEARCH_API_KEY"
                    (AzureSearchConfig.api_key search)
  /\ holds_variable env "AZURE_SEARCH_INDEX"
                    (AzureSearchConfig.index_name search)
  /\ holds_variable env "AZURE_OPENAI_ENDPOINT"
                    (AzureOpenAIConfig.endpoint openai)
  /\ holds_variable env "AZURE_OPENAI_API_KEY"
                    (AzureOpenAIConfig.api_key openai)
  /\ holds_variable env "AZURE_OPENAI_DEPLOYMENT"
                    (AzureOpenAIConfig.deployment_name openai)
  /\ match env !! "STREAMLIT_SERVER_PORT"%string with
     | Some (c :: s) =>
       exists port : Z,
         py_int (c :: s) = Returned port
         /\ AppConfig.streamlit_port cfg = Some port
     | _ => AppConfig.streamlit_port cfg = None
     end.
Proof.
  unfold load_config. intros Hload.
  destruct (get_env_var env "AZURE_SEARCH_ENDPOINT" true)
    as [v1|] eqn:H1; [|discriminate].
  destruct (get_env_var env "AZURE_SEARCH_API_KEY" true)
    as [v2|] eqn:H2; [|discriminate].
  destruct (get_env_var env "AZURE_SEARCH_INDEX" true)
    as [v3|] eqn:H3; [|discriminate].
  destruct (get_env_var env "AZURE_OPENAI_ENDPOINT" true)
    as [v4|] eqn:H4; [|discriminate].
  destruct (get_env_var env "AZURE_OPENAI_API_KEY" true)
    as [v5|] eqn:H5; [|discriminate].
  destruct (get_env_var env "AZURE_OPENAI_DEPLOYMENT" true)
    as [v6|] eqn:H6; [|discriminate].
  rewrite get_env_var_optional in Hload. cbn [outcome_bind] in Hload.
  apply get_env_var_required_inv in H1, H2, H3, H4, H5, H6.
  destruct (env !! "STREAMLIT_SERVER_PORT"%string) as [[|c s]|].
  - injection Hload as <-. by repeat split.
  - destruct (py_int (c :: s)) as [port|] eqn:Hport; [|discriminate].
    injection Hload as <-. repeat (split; [done|]). by exists port.
  - injection Hload as <-. by repeat split.
Qed.

(** X11: when the six required variables are set, the outcome depends on
    [STREAMLIT_SERVER_PORT] alone: unset or empty, the configuration is
    returned with no port and [int] is not consulted; set to a string that
    [int] accepts, the configuration is returned with that port; set to a
    string that [int] refuses, the exception of [int] is raised as it is. *)
Theorem load_config_port (env : environ) :
  Forall (is_set env) REQUIRED_VARIABLES ->
  (~ is_set env "STREAMLIT_SERVER_PORT" ->
   exists cfg, load_config py_int env = Returned cfg
               /\ AppConfig.streamlit_port cfg = None)
  /\ (forall (value : pystr) (port : Z),
        env !! "STREAMLIT_SERVER_PORT"%string = Some value ->
        value <> [] ->
        py_int value = Returned port ->
        exists cfg, load_config py_int env = Returned cfg
                    /\ AppConfig.streamlit_port cfg = Some port)
  /\ (forall (value : pystr) (e : exn),
        env !! "STREAMLIT_SERVER_PORT"%string = Some value ->
        value <> [] ->
        py_int value = Raised e ->
        load_config py_int env = Raised e).
Proof.
  unfold REQUIRED_VARIABLES. intros Hreq.
  repeat (apply Forall_cons in Hreq as [?%get_env_var_set Hreq]).
  repeat match goal with
         | H : exists _, _ |- _ => destruct H as (? & _ & _ & H)
         end.
  unfold load_config.
  repeat match goal with
         | H : get_env_var _ _ true = _ |- _ => rewrite H; clear H
         end.
  cbn [outcome_bind]. rewrite get_env_var_optional. cbn [outcome_bind].
  split; [|split].
  - intros Hunset.
    destruct (env !! "STREAMLIT_SERVER_PORT"%string) as [[|c s]|] eqn:Hport;
      cbn [outcome_bind]; try (by eexists).
    destruct Hunset. by exists (c :: s).
  - intros value port -> Hne Hint.
    destruct value as [|c s]; [by destruct Hne|].
    rewrite Hint. cbn [outcome_bind]. by eexists.
  - intros value e -> Hne Hint.
    destruct value as [|c s]; [by destruct Hne|].
    rewrite Hint. reflexivity.
Qed.

(** X12: [load_config] reports the first required variable, in reading
    order, that is unset or empty: the [ValueError] names that variable,
    whatever the later variables and the port hold. *)
Theorem load_config_first_missing (env : environ)
    (before after : list string) (var_name : string) :
  REQUIRED_VARIABLES = before ++ var_name :: after ->
  Forall (is_set env) before ->
  ~ is_set env var_name ->
  load_config py_int env = Raised (missing_variable_error var_name).
Proof.
  unfold REQUIRED_VARIABLES. intros Horder Hbefore Hunset.
  do 6 (destruct before as [|? before];
        [ injection Horder as <- _ | injection Horder as <- Horder;
          apply Forall_cons in Hbefore as [?%get_env_var_set Hbefore] ];
        [ repeat match goal with
                 | H : exists _, _ |- _ => destruct H as (? & _ & _ & H)
                 end;
          unfold load_config;
          repeat match goal with
                 | H : get_env_var _ _ true = _ |- _ =>
                   rewrite H; cbn [outcome_bind]; clear H
                 end;
          rewrite get_env_var_unset by exact Hunset; reflexivity | ]).
  by destruct before.
Qed.

End ConfigFacts.

Lemma load_config_fields_witness :
  exists cfg : AppConfig.t,
    load_config digits_int (env_with_port (u "8501")) = Returned cfg
    /\ holds_variable (env_with_port (u "8501")) "AZURE_SEARCH_INDEX"
         (AzureSearchConfig.index_name (AppConfig.azure_search cfg))
    /\ AppConfig.streamlit_port cfg = Some 8501.
Proof.
  destruct (load_config digits_int (env_with_port (u "8501")))
    as [cfg|e] eqn:Hload; [|vm_compute in Hload; discriminate].
  exists cfg. split; [reflexivity|].
  pose proof (load_config_fields digits_int _ cfg Hload) as Hfields.
  cbv zeta in Hfields.
  destruct Hfields as (_ & _ & Hindex & _ & _ & _ & Hport).
  split; [exact Hindex|].
  vm_compute in Hport. destruct Hport as (port & Hint & Hcfg).
  injection Hint as <-. exact Hcfg.
Defined.

Lemma env_with_port_required (port : pystr) :
  Forall (is_set (env_with_port port)) REQUIRED_VARIABLES.
Proof.
  unfold REQUIRED_VARIABLES.
  repeat (apply Forall_cons; split;
          [eexists; split; [vm_compute; reflexivity|discriminate]|]).
  apply Forall_nil_2.
Defined.

Lemma load_config_port_witness :
  (exists cfg,
     load_config digits_int (env_with_port (u "8501")) = Returned cfg
     /\ AppConfig.streamlit_port cfg = Some 8501)
  /\ load_config digits_int (env_with_port (u "puerto"))
     = Raised (Exn "ValueError" (u "invalid literal for int()") true).
Proof.
  split.
  - apply (proj1 (proj2 (load_config_port digits_int
                           (env_with_port (u "8501"))
                           (env_with_port_required _)))
             (u "8501") 8501).
    + vm_compute. reflexivity.
    + discriminate.
    + vm_compute. reflexivity.
  - apply (proj2 (proj2 (load_config_port digits_int
                           (env_with_port (u "puerto"))
                           (env_with_port_required _)))
             (u "puerto")).
    + vm_compute. reflexivity.
    + discriminate.
    + vm_compute. reflexivity.
Defined.

Lemma load_config_first_missing_witness :
  load_config digits_int env_empty_key
  = Raised (missing_variable_error "AZURE_SEARCH_INDEX").
Proof.
  apply (load_config_first_missing digits_int env_empty_key
           ["AZURE_SEARCH_ENDPOINT"; "AZURE_SEARCH_API_KEY"]%string
           ["AZURE_OPENAI_ENDPOINT"; "AZURE_OPENAI_API_KEY";
            "AZURE_OPENAI_DEPLOYMENT"]%string).
  - reflexivity.
  - repeat (apply Forall_cons; split;
            [eexists; split; [vm_compute; reflexivity|discriminate]|]).
    apply Forall_nil_2.
  - intros (value & Hvalue & Hne). vm_compute in Hvalue.
    injection Hvalue as <-. by destruct Hne.
Defined.

(** ** The captions of the sources that the pipeline returns *)

Lemma source_info_get_page (doc : dict) :
  dict_get (make_source_info doc) "pageNumber" VNone = VNone.
Proof.
  unfold dict_get at 1. rewrite make_source_info_lookup. reflexivity.
Qed.

Lemma source_info_get_score (doc : dict) (dflt : pyval) :
  dict_get (make_source_info doc) "score" dflt
  = dict_get doc "score" (VFloat 0%float).
Proof.
  unfold dict_get at 1. rewrite make_source_info_lookup. reflexivity.
Qed.

Lemma source_info_get_source (doc : dict) (dflt : pyval) :
  dict_get (make_source_info doc) "source" dflt
  = dict_get doc "source" (VStr (u "Unknown")).
Proof.
  unfold dict_get at 1. rewrite make_source_info_lookup. reflexivity.
Qed.

Section CaptionFacts.

Variable float_str : float -> pystr.
Variable format_2f : pyval -> pystr.

(** X13: for every source entry that [rag_answer] builds, the caption of
    the fresh answer never has the page part, and it is the caption that
    the history shows again for the same entry, text or exception. *)
Theorem caption_same_in_history (i : Z) (doc : dict) :
  live_caption float_str format_2f i (make_source_info doc)
  = history_caption float_str format_2f i (make_source_info doc).
Proof.
  unfold live_caption, history_caption.
  rewrite source_info_get_page. reflexivity.
Qed.

(** X14: the caption of the entry of a search result without a score is
    the index and the source name alone, with no relevance figure; when
    the result holds [None] or a string as score, building the caption
    raises a [TypeError]. *)
Theorem caption_score_cases (i : Z) (doc : dict) :
  (doc !! "score"%string = None ->
   live_caption float_str format_2f i (make_source_info doc)
   = Returned (int_str i ++ u ". "
               ++ py_str float_str
                         (dict_get doc "source" (VStr (u "Unknown")))))
  /\ (forall v : pyval,
        doc !! "score"%string = Some v ->
        v = VNone \/ (exists s, v = VStr s) ->
        exists e : exn,
          live_caption float_str format_2f i (make_source_info doc)
          = Raised e
          /\ exn_type e = "TypeError"%string).
Proof.
  unfold live_caption.
  rewrite source_info_get_page, source_info_get_score,
    source_info_get_source.
  cbv zeta. split.
  - intros Hscore. unfold dict_get at 1. rewrite Hscore. reflexivity.
  - intros v Hscore Hv. unfold dict_get at 1. rewrite Hscore.
    destruct Hv as [->|[s ->]]; by eexists.
Qed.

End CaptionFacts.

Lemma caption_score_cases_witness :
  live_caption (fun _ => u "1.5") (fun _ => u "1.50") 2
               (make_source_info doc_bare)
  = Returned (int_str 2 ++ u ". "
              ++ py_str (fun _ => u "1.5")
                        (dict_get doc_bare "source" (VStr (u "Unknown")))).
Proof.
  apply (proj1 (caption_score_cases (fun _ => u "1.5") (fun _ => u "1.50")
                                    2 doc_bare)).
  reflexivity.
Defined.
